(** * Timeline-Basic: the layout pipeline of [src/visual.ts]

    A shallow embedding of the data path of the Power BI visual
    [Visual.update]: the row extractor [Visual.CONVERTER], the hard cap,
    the date-window selection, [getColorDataByYear], the axis choice of
    [renderXandYAxis]/[diff_years], and the per-index placement of
    [renderBox] and [renderTimeRangeLines].

    JavaScript values are modelled explicitly: [null]/[undefined] cells,
    truthiness, [toString] (which throws a TypeError on null/undefined),
    Date objects holding a time value (or the Invalid Date, which the
    Date constructors also give for a time value past +-8.64e15 ms), and
    numbers that may be NaN or infinite.  Local time is taken as UTC; all dates
    the pipeline builds are local midnights, so no time of day is lost. *)

From Stdlib Require Import ZArith QArith Lia List String Ascii Bool.
Import ListNotations.
Open Scope Z_scope.

(* ------------------------------------------------------------------ *)
(** ** JavaScript results: a computation that returns or throws *)

Inductive js_error := TypeError.

Inductive js_result (A : Type) :=
| JOk (a : A)
| JThrow (e : js_error).
Arguments JOk {A} a.
Arguments JThrow {A} e.

Definition js_bind {A B} (m : js_result A) (k : A -> js_result B) : js_result B :=
  match m with JOk a => k a | JThrow e => JThrow e end.

Notation "x <- m ;; k" := (js_bind m (fun x => k))
  (at level 61, m at next level, right associativity).

(** [Array.prototype.map] with a callback that may throw. *)
Fixpoint js_map {A B} (f : A -> js_result B) (l : list A) : js_result (list B) :=
  match l with
  | [] => JOk []
  | x :: l' => y <- f x ;; ys <- js_map f l' ;; JOk (y :: ys)
  end.

(* ------------------------------------------------------------------ *)
(** ** Calendar: days since 1970-01-01 (proleptic Gregorian) *)

Definition ms_per_day : Z := 86400000.

(** Days from 1970-01-01 to January 1 of year [y]. *)
Definition days_jan1 (y : Z) : Z :=
  365 * (y - 1970) + ((y - 1) / 4 - (y - 1) / 100 + (y - 1) / 400) - 477.

Definition is_leap (y : Z) : bool :=
  (y mod 4 =? 0) && negb (y mod 100 =? 0) || (y mod 400 =? 0).

(** Days from January 1 to the first day of month [m] (0-based, 0..11). *)
Definition days_before_month (y m : Z) : Z :=
  let cum := [0; 31; 59; 90; 120; 151; 181; 212; 243; 273; 304; 334] in
  nth (Z.to_nat m) cum 0 + (if (2 <=? m) && is_leap y then 1 else 0).

(** The year containing day [d]: a first guess from the mean Gregorian
    year (146097 days per 400 years), corrected by one either way. *)
Definition year_of_days (d : Z) : Z :=
  let g := 1970 + (400 * d) / 146097 in
  if d <? days_jan1 g then g - 1
  else if days_jan1 (g + 1) <=? d then g + 1
  else g.

(** The month (0-based) containing day [d]. *)
Definition month_of_days (d : Z) : Z :=
  let y := year_of_days d in
  let doy := d - days_jan1 y in
  let fix go (m : nat) : Z :=
    match m with
    | O => 0
    | S m' => if days_before_month y (Z.of_nat m) <=? doy then Z.of_nat m else go m'
    end in
  go 11%nat.

(* ------------------------------------------------------------------ *)
(** ** Numbers and Date objects *)

(** A JavaScript number as far as the pipeline uses it: time values and
    years are integers; [Math.min]/[Math.max] may yield NaN or an infinity. *)
Inductive jsnum :=
| NaN
| PosInf
| NegInf
| Fin (z : Z).

(** A Date object: a time value in milliseconds, or the Invalid Date
    (time value NaN). *)
Inductive jsdate :=
| Invalid
| Valid (t : Z).

(** The largest time value a Date can hold: 8.64e15 ms, 10^8 days. *)
Definition max_time_value : Z := 8640000000000000.

(** [TimeClip]: the Date constructors turn a time value past
    [+-8.64e15] into the Invalid Date. *)
Definition time_clip (t : Z) : jsdate :=
  if Z.abs t <=? max_time_value then Valid t else Invalid.

(** [new Date(n)] *)
Definition date_of_number (n : jsnum) : jsdate :=
  match n with Fin t => time_clip t | _ => Invalid end.

(** [+d] for a value of the [Date] field: [null] converts to 0. *)
Definition number_of_date (d : option jsdate) : jsnum :=
  match d with
  | None => Fin 0
  | Some Invalid => NaN
  | Some (Valid t) => Fin t
  end.

(** [d.getFullYear()] and [d.getMonth()]; [None] is NaN. *)
Definition getFullYear (d : jsdate) : option Z :=
  match d with Invalid => None | Valid t => Some (year_of_days (t / ms_per_day)) end.

Definition getMonth (d : jsdate) : option Z :=
  match d with Invalid => None | Valid t => Some (month_of_days (t / ms_per_day)) end.

(** The two-digit-year rule of the multi-argument Date constructor:
    a year 0..99 stands for 1900..1999. *)
Definition ctor_year (y : Z) : Z :=
  if (0 <=? y) && (y <=? 99) then 1900 + y else y.

(** [new Date(y, m, day)] at local midnight, months overflowing into
    years; a NaN year or month, or a time value out of range, gives the
    Invalid Date. *)
Definition new_date (y m : option Z) (day : Z) : jsdate :=
  match y, m with
  | Some y, Some m =>
      let y' := ctor_year y + m / 12 in
      let m' := m mod 12 in
      time_clip ((days_jan1 y' + days_before_month y' m' + (day - 1)) * ms_per_day)
  | _, _ => Invalid
  end.

(** [Math.min(a, b)] and [Math.max(a, b)] on the values used here. *)
Definition js_min2 (a b : jsnum) : jsnum :=
  match a, b with
  | NaN, _ | _, NaN => NaN
  | NegInf, _ | _, NegInf => NegInf
  | PosInf, x | x, PosInf => x
  | Fin x, Fin y => Fin (Z.min x y)
  end.

Definition js_max2 (a b : jsnum) : jsnum :=
  match a, b with
  | NaN, _ | _, NaN => NaN
  | PosInf, _ | _, PosInf => PosInf
  | NegInf, x | x, NegInf => x
  | Fin x, Fin y => Fin (Z.max x y)
  end.

(** [Math.min.apply(null, xs)] and [Math.max.apply(null, xs)]. *)
Definition math_min (xs : list jsnum) : jsnum := fold_left js_min2 xs PosInf.
Definition math_max (xs : list jsnum) : jsnum := fold_left js_max2 xs NegInf.

(* ------------------------------------------------------------------ *)
(** ** Table cells *)

(** A cell of a [DataViewTable] row. *)
Inductive jsval :=
| JUndefined
| JNull
| JBool (b : bool)
| JNum (z : Z)
| JStr (s : string).

(** Truthiness, as tested by [row[i] ? ... : ...]. *)
Definition truthy (v : jsval) : bool :=
  match v with
  | JUndefined | JNull => false
  | JBool b => b
  | JNum z => negb (z =? 0)
  | JStr s => negb (String.eqb s ""%string)
  end.

Fixpoint digits_of_nat (fuel : nat) (n : nat) (acc : string) : string :=
  match fuel with
  | O => acc
  | S fuel' =>
      let d := String (ascii_of_nat (48 + n mod 10)%nat) acc in
      if (n <? 10)%nat then d else digits_of_nat fuel' (n / 10)%nat d
  end.

Definition string_of_Z (z : Z) : string :=
  let s := digits_of_nat (S (Z.to_nat (Z.log2 (Z.abs z)))) (Z.to_nat (Z.abs z)) ""%string in
  if z <? 0 then String "-"%char s else s.

(** [v.toString()]: a TypeError on [null] and [undefined]. *)
Definition js_toString (v : jsval) : js_result string :=
  match v with
  | JUndefined | JNull => JThrow TypeError
  | JBool b => JOk (if b then "true"%string else "false"%string)
  | JNum z => JOk (string_of_Z z)
  | JStr s => JOk s
  end.

(** [row[i]]: out of range (in particular [row[-1]]) is [undefined]. *)
Definition row_at (row : list jsval) (i : Z) : jsval :=
  if (0 <=? i) && (i <? Z.of_nat (List.length row)) then List.nth (Z.to_nat i) row JUndefined
  else JUndefined.

(* ------------------------------------------------------------------ *)
(** ** Rows to events: [Visual.CONVERTER] and the hard cap *)

(** The data roles of the visual. *)
Inductive role := CompanyRole | TypeRole | DescriptionRole | CompanyLinkRole | DateRole
                | HeaderImageRole | FooterImageRole.

Definition role_eqb (a b : role) : bool :=
  match a, b with
  | CompanyRole, CompanyRole | TypeRole, TypeRole | DescriptionRole, DescriptionRole
  | CompanyLinkRole, CompanyLinkRole | DateRole, DateRole
  | HeaderImageRole, HeaderImageRole | FooterImageRole, FooterImageRole => true
  | _, _ => false
  end.

(** A metadata column: the keys of its [roles] object. *)
Record column := { roles : list role }.

(** [_columns[ti].roles.hasOwnProperty(r)] *)
Definition hasRole (c : column) (r : role) : bool := existsb (role_eqb r) (roles c).

(** The seven column indices of [CONVERTER], all starting at -1. *)
Record role_indices := {
  companyIndex : Z; typeIndex : Z; descIndex : Z; companylinkIndex : Z;
  dateIndex : Z; headerImageIndex : Z; footerImageIndex : Z }.

Definition no_indices : role_indices := Build_role_indices (-1) (-1) (-1) (-1) (-1) (-1) (-1).

(** One turn of the column loop: the [if / else if] chain. *)
Definition bind_column (ix : role_indices) (ti : Z) (c : column) : role_indices :=
  let '(Build_role_indices co ty de cl da hi fi) := ix in
  if hasRole c CompanyRole then Build_role_indices ti ty de cl da hi fi
  else if hasRole c TypeRole then Build_role_indices co ti de cl da hi fi
  else if hasRole c DescriptionRole then Build_role_indices co ty ti cl da hi fi
  else if hasRole c CompanyLinkRole then Build_role_indices co ty de ti da hi fi
  else if hasRole c DateRole then Build_role_indices co ty de cl ti hi fi
  else if hasRole c HeaderImageRole then Build_role_indices co ty de cl da ti fi
  else if hasRole c FooterImageRole then Build_role_indices co ty de cl da hi ti
  else ix.

(** [for (var ti = 0; ti < _columns.length; ti++) ...] *)
Fixpoint bind_columns_from (ix : role_indices) (ti : Z) (cols : list column) : role_indices :=
  match cols with
  | [] => ix
  | c :: cols' => bind_columns_from (bind_column ix ti c) (ti + 1) cols'
  end.

Definition bind_roles (cols : list column) : role_indices := bind_columns_from no_indices 0 cols.

Definition index_of_role (ix : role_indices) (r : role) : Z :=
  match r with
  | CompanyRole => companyIndex ix | TypeRole => typeIndex ix | DescriptionRole => descIndex ix
  | CompanyLinkRole => companylinkIndex ix | DateRole => dateIndex ix
  | HeaderImageRole => headerImageIndex ix | FooterImageRole => footerImageIndex ix
  end.

(** [TimelineData]; the selection id is the opaque per-row token the host
    builds from the row index. *)
Record TimelineData := {
  ev_Company : string;
  ev_Type : string;
  ev_Description : option string;
  ev_CompanyLink : option string;
  ev_Date : option jsdate;
  ev_HeaderImage : option string;
  ev_FooterImage : option string;
  ev_selectionId : nat }.

(** [row[i] ? row[i].toString() : dflt] never throws: a truthy cell is
    neither [null] nor [undefined]. *)
Definition cell_or (v : jsval) (dflt : option string) : option string :=
  if truthy v then match js_toString v with JOk s => Some s | JThrow _ => dflt end
  else dflt.

Section Converter.
(** [Date.parse] of the host; [None] is NaN. *)
Variable date_parse : string -> option Z.

(** [row[_dateIndex] ? new Date(Date.parse(row[_dateIndex].toString())) : null] *)
Definition date_cell (v : jsval) : option jsdate :=
  if truthy v then
    match js_toString v with
    | JOk s => Some (match date_parse s with Some t => time_clip t | None => Invalid end)
    | JThrow _ => None
    end
  else None.

(** The object literal [dp] built for row [i]; its first field,
    [row[_companyIndex].toString()], is unguarded. *)
Definition convert_row (ix : role_indices) (i : nat) (row : list jsval)
  : js_result TimelineData :=
  company <- js_toString (row_at row (companyIndex ix)) ;;
  JOk {| ev_Company := company;
         ev_Type := match cell_or (row_at row (typeIndex ix)) None with
                    | Some s => s | None => ""%string end;
         ev_Description := cell_or (row_at row (descIndex ix)) None;
         ev_CompanyLink := cell_or (row_at row (companylinkIndex ix)) None;
         ev_Date := date_cell (row_at row (dateIndex ix));
         ev_HeaderImage := cell_or (row_at row (headerImageIndex ix)) None;
         ev_FooterImage := cell_or (row_at row (footerImageIndex ix)) None;
         ev_selectionId := i |}.

Fixpoint convert_rows (ix : role_indices) (i : nat) (rows : list (list jsval))
  : js_result (list TimelineData) :=
  match rows with
  | [] => JOk []
  | row :: rows' =>
      dp <- convert_row ix i row ;;
      rest <- convert_rows ix (S i) rows' ;;
      JOk (dp :: rest)
  end.

(** [Visual.CONVERTER(dataView, host)] *)
Definition CONVERTER (cols : list column) (rows : list (list jsval))
  : js_result (list TimelineData) :=
  convert_rows (bind_roles cols) 0 rows.

(** [timelineData = Visual.CONVERTER(...); timelineData = timelineData.slice(0, 100)] *)
Definition extract (cols : list column) (rows : list (list jsval))
  : js_result (list TimelineData) :=
  data <- CONVERTER cols rows ;; JOk (firstn 100 data).
End Converter.

(** A [Date.parse] for ISO date-only strings "YYYY-MM-DD" (read as UTC
    midnight, as ECMAScript prescribes); anything else is NaN. *)
Definition digit (c : ascii) : option Z :=
  let n := Z.of_nat (nat_of_ascii c) - 48 in
  if (0 <=? n) && (n <=? 9) then Some n else None.

Fixpoint digits_value (s : string) (acc : Z) : option Z :=
  match s with
  | EmptyString => Some acc
  | String c s' => match digit c with Some d => digits_value s' (10 * acc + d) | None => None end
  end.

Definition parse_iso_date (s : string) : option Z :=
  match s with
  | String y1 (String y2 (String y3 (String y4 (String "-" (String m1 (String m2
      (String "-" (String d1 (String d2 EmptyString))))))))) =>
      match digits_value (String y1 (String y2 (String y3 (String y4 EmptyString)))) 0,
            digits_value (String m1 (String m2 EmptyString)) 0,
            digits_value (String d1 (String d2 EmptyString)) 0 with
      | Some y, Some m, Some d =>
          if (1 <=? m) && (m <=? 12) && (1 <=? d) && (d <=? 31) then
            Some ((days_jan1 y + days_before_month y (m - 1) + (d - 1)) * ms_per_day)
          else None
      | _, _, _ => None
      end
  | _ => None
  end.

(* ------------------------------------------------------------------ *)
(** ** The date window of [Visual.update] *)

(** [d.Date.getFullYear()]: a TypeError when [d.Date] is [null]. *)
Definition date_year (d : option jsdate) : js_result (option Z) :=
  match d with None => JThrow TypeError | Some dt => JOk (getFullYear dt) end.

(** [a >= b] and [a <= b] on numbers that may be NaN. *)
Definition js_ge (a b : option Z) : bool :=
  match a, b with Some x, Some y => y <=? x | _, _ => false end.
Definition js_le (a b : option Z) : bool :=
  match a, b with Some x, Some y => x <=? y | _, _ => false end.

(** [.filter(e => e)]: objects are truthy, [undefined] is not. *)
Fixpoint filter_defined {A} (l : list (option A)) : list A :=
  match l with
  | [] => []
  | Some x :: l' => x :: filter_defined l'
  | None :: l' => filter_defined l'
  end.

(** [data.map(d => { if (test(d.Date.getFullYear())) { return d; } }).filter(e => e)] *)
Definition keep_years (test : option Z -> bool) (data : list TimelineData)
  : js_result (list TimelineData) :=
  ms <- js_map (fun d => y <- date_year (ev_Date d) ;;
                         JOk (if test y then Some d else None)) data ;;
  JOk (filter_defined ms).

(** The else-branch: the window spanned by the data itself. *)
Definition data_window (data : list TimelineData) : jsdate * jsdate :=
  let minD := date_of_number (math_min (map (fun d => number_of_date (ev_Date d)) data)) in
  let maxD := date_of_number (math_max (map (fun d => number_of_date (ev_Date d)) data)) in
  (new_date (getFullYear minD) (Some 0) 1,
   new_date (option_map (fun y => y + 1) (getFullYear maxD)) (Some 0) 1).

(** Lines 124-142 of [update]: [(minDate, maxDate, timelineData)] after
    the window has been chosen; [PreviousYear] and [FutureYear] are the
    [displayYears] settings. *)
Definition select_window (currentYear PreviousYear FutureYear : Z)
  (timelineData : list TimelineData) : js_result (jsdate * jsdate * list TimelineData) :=
  local <-
    (if (0 <? Z.of_nat (List.length timelineData))%Z then
       let minDate := new_date (Some (currentYear - PreviousYear)) (Some 0) 1 in
       l1 <- keep_years (fun y => js_ge y (getFullYear minDate)) timelineData ;;
       let maxDate := new_date (Some (currentYear + FutureYear)) (Some 0) 1 in
       l2 <- keep_years (fun y => js_le y (getFullYear maxDate)) l1 ;;
       JOk (Some (minDate, maxDate), l2)
     else JOk (None, [])) ;;
  match local with
  | (Some (minDate, maxDate), (_ :: _) as l) => JOk (minDate, maxDate, l)
  | _ => let '(minDate, maxDate) := data_window timelineData in
         JOk (minDate, maxDate, timelineData)
  end.

(* ------------------------------------------------------------------ *)
(** ** [getColorDataByYear] *)

Definition colors : list string :=
  ["#242B47"; "#D5792E"; "#8EB40E"; "#597DAB"; "#5AC1C4"; "#595959"; "#154360";
   "#0B5345"; "#784212"; "#424949"; "#17202A"; "#E74C3C"; "#00ff00"; "#0000ff";
   "#252D48"]%string.

(** [{year, color: colors[i++]}] for [n] consecutive years; an index past
    the palette reads [undefined] ([None]). *)
Fixpoint color_rows (n : nat) (year : Z) (i : nat) : list (Z * option string) :=
  match n with
  | O => []
  | S n' => (year, nth_error colors i) :: color_rows n' (year + 1) (S i)
  end.

(** [for (year = minDate.getFullYear(), i = 0; year <= maxDate.getFullYear() + 1; year++)];
    with a NaN bound the loop body never runs. *)
Definition getColorDataByYear (minDate maxDate : jsdate) : list (Z * option string) :=
  match getFullYear minDate, getFullYear maxDate with
  | Some lo, Some hi => color_rows (Z.to_nat (hi + 1 - lo + 1)) lo 0
  | _, _ => []
  end.

(** [colorDataByYear.find(c => c.year === y)]: [None] when no entry. *)
Definition colorOf (table : list (Z * option string)) (y : Z) : option (option string) :=
  option_map snd (find (fun c => fst c =? y) table).

(* ------------------------------------------------------------------ *)
(** ** [renderXandYAxis] and [diff_years] *)

(** [Math.round(n / d)] for [d > 0]: [floor(n/d + 1/2)]. *)
Definition js_round_div (n d : Z) : Z := (2 * n + d) / (2 * d).

(** [diff_years(dt2, dt1)]:
    [Math.abs(Math.round((dt2 - dt1) / 1000 / 86400 / 365.25))], computed
    exactly: [(dt2 - dt1) / 86400000 / 365.25 = 4 (dt2 - dt1) / (86400000 * 1461)].
    For spans of whole days, as between the local midnights the pipeline
    builds, the double-precision result is the same. *)
Definition diff_years (dt2 dt1 : jsdate) : option Z :=
  match dt2, dt1 with
  | Valid a, Valid b => Some (Z.abs (js_round_div (4 * (a - b)) (ms_per_day * 1461)))
  | _, _ => None
  end.

Inductive granularity := Month | Year.

Record axis_scale := {
  granularity_of : granularity;
  domain : jsdate * jsdate;
  range : Z * Z }.

Definition margin_left : Z := 40.

(** The x scale of [renderXandYAxis(minDate, maxDate, gWidth, gHeight)]:
    [this.diff_years(minDate, maxDate) <= 1] selects monthly ticks over a
    domain widened by a month on each side. *)
Definition renderXAxis (minDate maxDate : jsdate) (gWidth : Z) : axis_scale :=
  if match diff_years minDate maxDate with Some n => n <=? 1 | None => false end then
    {| granularity_of := Month;
       domain := (new_date (getFullYear minDate) (option_map (fun m => m - 1) (getMonth minDate)) 1,
                  new_date (getFullYear maxDate) (option_map (fun m => m + 1) (getMonth maxDate)) 1);
       range := (margin_left, gWidth) |}
  else
    {| granularity_of := Year; domain := (minDate, maxDate); range := (margin_left, gWidth) |}.

(* ------------------------------------------------------------------ *)
(** ** Placement: [renderBox] and [renderTimeRangeLines] *)

(** [Math.ceil(i / 2)] *)
Definition ceil_half (i : Z) : Z := - ((- i) / 2).

(** The logical y (argument of [yScale]) of the box at index [i]. *)
Definition box_y (i : Z) : Z :=
  if i mod 2 =? 0 then
    let count := i / 2 in
    if count mod 2 =? 0 then -100 else -60
  else
    let count := ceil_half i in
    if count mod 2 =? 0 then 90 else 40.

(** The logical [y2] of the connector line at index [i] (the same rule,
    written out a second time in [renderTimeRangeLines]). *)
Definition line_y2 (i : Z) : Z :=
  if i mod 2 =? 0 then
    let count := i / 2 in
    if count mod 2 =? 0 then -100 else -60
  else
    let count := ceil_half i in
    if count mod 2 =? 0 then 90 else 40.

(** The logical [y1] of the connector line. *)
Definition line_y1 (i : Z) : Z := if i mod 2 =? 0 then -10 else 10.

(** [selection.data(xs)...attr(f)]: [f] called with each datum and its index. *)
Fixpoint mapi_from {A B} (f : Z -> A -> B) (i : Z) (l : list A) : list B :=
  match l with
  | [] => []
  | x :: l' => f i x :: mapi_from f (i + 1) l'
  end.

Definition box_ys (timelineData : list TimelineData) : list Z :=
  mapi_from (fun i _ => box_y i) 0 timelineData.

(** The four lanes and their logical heights. *)
Inductive lane := FarNegative | NearNegative | NearPositive | FarPositive.

Definition lane_y (l : lane) : Z :=
  match l with
  | FarNegative => -100 | NearNegative => -60 | NearPositive => 40 | FarPositive => 90
  end.

(** A pixel value: a number, or NaN. *)
Inductive pixel := PNaN | Px (q : Q).

(** A d3 [scaleTime] with the default (unclamped) linear interpolation:
    the argument is coerced to a number ([null] is 0), and NaN anywhere
    gives NaN.  A degenerate domain maps to the middle of the range, as
    d3's [normalize] does. *)
Definition scaleTime (dom : jsdate * jsdate) (rng : Z * Z) (d : option jsdate) : pixel :=
  match fst dom, snd dom, number_of_date d with
  | Valid d0, Valid d1, Fin x =>
      let '(r0, r1) := rng in
      if d1 =? d0 then Px (inject_Z r0 + inject_Z (r1 - r0) * (1 # 2))%Q
      else Px (inject_Z r0 + inject_Z (r1 - r0) * (inject_Z (x - d0) / inject_Z (d1 - d0)))%Q
  | _, _, _ => PNaN
  end.

(** [isNaN(x) ? 0 : (x + 20)], used for both [x1] and [x2]. *)
Definition line_x (x : pixel) : Q :=
  match x with PNaN => 0%Q | Px v => (v + inject_Z 20)%Q end.

(** The connector line of the event [d] at index [i]: [(x1, y1, x2, y2)]
    with the logical y values. *)
Definition time_range_line (xScale : option jsdate -> pixel) (i : Z) (d : TimelineData)
  : Q * Z * Q * Z :=
  (line_x (xScale (ev_Date d)), line_y1 i, line_x (xScale (ev_Date d)), line_y2 i).


(* ------------------------------------------------------------------ *)
(** ** The layout computed by one [update] *)

Record layout := {
  window : jsdate * jsdate;
  colorDataByYear : list (Z * option string);
  xAxis : axis_scale;
  events : list TimelineData }.

(** [update] up to the rendering calls, for the default [None] layout
    (no header or footer image). *)
Definition update_layout (date_parse : string -> option Z) (cols : list column)
  (rows : list (list jsval)) (currentYear PreviousYear FutureYear gWidth : Z)
  : js_result layout :=
  timelineData <- extract date_parse cols rows ;;
  w <- select_window currentYear PreviousYear FutureYear timelineData ;;
  let '(minDate, maxDate, work) := w in
  JOk {| window := (minDate, maxDate);
         colorDataByYear := getColorDataByYear minDate maxDate;
         xAxis := renderXAxis minDate maxDate gWidth;
         events := work |}.

(* ------------------------------------------------------------------ *)
(** ** The rendering helpers of [update] *)

(** [this.margin] = [{ top: 50, right: 40, bottom: 50, left: 40 }]. *)
Definition margin_top : Z := 50.
Definition margin_right : Z := 40.
Definition margin_bottom : Z := 50.

(** [this.yScale = d3.scaleLinear().domain([-105, 105]).range([gHeight, this.margin.top])]:
    [r0 + (r1 - r0) * (v - d0) / (d1 - d0)]. *)
Definition yScale (gHeight : Z) (v : Z) : Q :=
  (inject_Z gHeight + inject_Z (margin_top - gHeight) * (inject_Z (v - (-105)) / inject_Z (105 - (-105))))%Q.

(** The [transform] of the [x-axis-line] group:
    [translate(20, (gHeight / 2) + 25)]. *)
Definition x_axis_translate (gHeight : Z) : Q * Q :=
  (inject_Z 20, (inject_Z gHeight / inject_Z 2 + inject_Z 25)%Q).

(** The pixel rows [(y1, y2)] of the connector line at index [i]:
    [yScale(-10)] or [yScale(10)], and [yScale] of the box's lane. *)
Definition line_pixel_ys (gHeight i : Z) : Q * Q :=
  (yScale gHeight (line_y1 i), yScale gHeight (line_y2 i)).

(** [renderBox]: the [transform] of the group of the event [d] at index
    [i], [translate(xScale(d.Date) - 25, y)] with [y = yScale(...)] of the
    box's lane; the x is NaN when the scale gives NaN. *)
Definition box_translate (xScale : option jsdate -> pixel) (gHeight i : Z) (d : TimelineData)
  : pixel * Q :=
  (match xScale (ev_Date d) with PNaN => PNaN | Px v => Px (v - inject_Z 25)%Q end,
   yScale gHeight (box_y i)).

(** The marker circle of each box: [cx = 45], [cy = 0] inside the group. *)
Definition marker_cx : Z := 45.
Definition marker_cy : Z := 0.

(** [_self.colorDataByYear.find(c => c.year === d.Date.getFullYear()).color],
    the stroke of a connector line and the fill of a box's marker circle:
    a TypeError on a [null] date, and when no entry has the year (a NaN
    year matches none and [undefined.color] throws). *)
Definition event_color (table : list (Z * option string)) (d : TimelineData)
  : js_result (option string) :=
  y <- date_year (ev_Date d) ;;
  match y with
  | Some y => match colorOf table y with Some c => JOk c | None => JThrow TypeError end
  | None => JThrow TypeError
  end.

(** The [stroke] styles of [renderTimeRangeLines] over the working set. *)
Definition line_strokes (table : list (Z * option string)) (timelineData : list TimelineData)
  : js_result (list (option string)) :=
  js_map (event_color table) timelineData.

(** [renderTimeRangeLines(gHeight, timelineData)]: one line per event with
    its [x1], [y1], [x2], [y2] attributes (logical y values) and its
    [stroke] style.  d3 evaluates each [attr]/[style] callback over the
    whole selection in turn; the coordinate callbacks never throw, so the
    call throws exactly when a [stroke] lookup throws. *)
Definition renderTimeRangeLines (xScale : option jsdate -> pixel)
  (table : list (Z * option string)) (timelineData : list TimelineData)
  : js_result (list ((Q * Z * Q * Z) * option string)) :=
  strokes <- line_strokes table timelineData ;;
  JOk (combine (mapi_from (time_range_line xScale) 0 timelineData) strokes).

(** [v == null] for a cell: the values [toString()] throws on. *)
Definition nullish (v : jsval) : bool :=
  match v with JUndefined | JNull => true | _ => false end.

Section Strings.
Local Open Scope string_scope.

(** [String.prototype.toLowerCase] on ASCII text. *)
Definition ascii_lower (c : ascii) : ascii :=
  let n := nat_of_ascii c in
  if (65 <=? n)%nat && (n <=? 90)%nat then ascii_of_nat (n + 32) else c.

Fixpoint js_toLowerCase (s : string) : string :=
  match s with
  | EmptyString => EmptyString
  | String c s' => String (ascii_lower c) (js_toLowerCase s')
  end.

(** [s.indexOf(p)]: the first position of [p] in [s], or -1. *)
Definition js_indexOf (s p : string) : Z :=
  match index 0 p s with Some n => Z.of_nat n | None => -1 end.

Definition baseurl : string := "https://strategicanalysisinc.sharepoint.com".

(** The URL [handleHyperLinkClick] passes to [host.launchUrl] when the
    company link with [href] [link] is clicked. *)
Definition launch_link (link : string) : string :=
  if Z.eqb (js_indexOf link "http") (-1) || Z.ltb 0 (js_indexOf link "http") then baseurl ++ link
  else link.

(** The [class] attribute of a box group ([undefined] when no branch
    returns). *)
Definition box_class (ty : string) : option string :=
  if String.eqb ty "Regulatory" then Some "rect regulatory"
  else if String.eqb ty "Commercial" then Some "rect commercial"
  else if String.eqb ty "Clinical Trails" then Some "rect clinical-trails"
  else None.

(** The four icons (base64 PNG data URLs in the source). *)
Inductive icon := ClinicalTrialsIcon | CommercialIcon | RegulatoryIcon | LaunchIcon.

(** The [xlink:href] of the box image: [''] ([None]) when no branch matches. *)
Definition box_icon (ty : string) : option icon :=
  if String.eqb ty "Clinical Trials" then Some ClinicalTrialsIcon
  else if String.eqb ty "Commercial" then Some CommercialIcon
  else if String.eqb ty "Regulatory" then Some RegulatoryIcon
  else if String.eqb ty "Launch" then Some LaunchIcon
  else None.

(** A number concatenated to a string: its decimal digits, or NaN. *)
Definition num_text (n : option Z) : string :=
  match n with Some z => string_of_Z z | None => "NaN" end.

(** [d.getDate()]; [None] is NaN. *)
Definition getDate (d : jsdate) : option Z :=
  match d with
  | Invalid => None
  | Valid t =>
      let days := t / ms_per_day in
      let y := year_of_days days in
      Some (days - days_jan1 y - days_before_month y (month_of_days days) + 1)
  end.

(** [dateHtml] of the tooltip. *)
Definition tooltip_date_html (dt : jsdate) : string :=
  "<div>" ++ num_text (option_map (fun m => m + 1) (getMonth dt)) ++ "/" ++
  num_text (getDate dt) ++ "/" ++ num_text (getFullYear dt) ++ "</div>".

Section Tooltip.
(** The [sanitize-html] library, on a field that may be [null]. *)
Variable sanitizeHtml : option string -> string.
(** [+s] appended to a string: the text of the number [s] converts to. *)
Variable unary_plus_text : string -> string.

(** The [mousemove] handler of [renderBox]: the tooltip html of [d]; the
    first [d.Date.getMonth()] throws on a [null] date. *)
Definition tooltip_html (d : TimelineData) : js_result string :=
  dt <- (match ev_Date d with None => JThrow TypeError | Some dt => JOk dt end) ;;
  let dateHtml := tooltip_date_html dt in
  let company := sanitizeHtml (Some (ev_Company d)) in
  let desc := sanitizeHtml (ev_Description d) in
  JOk (if String.eqb (ev_Type d) "Regulatory" then
         dateHtml ++ "<div>" ++ company ++ "</div>" ++ "<div>" ++ desc ++ "</div>"
       else if String.eqb (ev_Type d) "Commercial" then
         dateHtml ++ "<div>" ++ company ++ "</div>" ++ "<div>" ++ desc ++ "</div>"
       else if String.eqb (ev_Type d) "Clinical Trials" then
         dateHtml ++ "<div>" ++ company ++ "</div>" ++ "<div>" ++ unary_plus_text desc ++ "</div>"
       else if String.eqb (ev_Type d) "Launch" then
         dateHtml ++ "<div>" ++ company ++ "</div>" ++ "<div>" ++ unary_plus_text desc ++ "</div>"
       else "").
End Tooltip.

(** The image [renderHeaderAndFooter] adds above or below the chart. *)
Inductive banner := HeaderBanner (src : string) | FooterBanner (src : string) | NoBanner.

Section HeaderFooter.
(** The [valid-data-url] test on a string ([null] never passes it). *)
Variable validDataUrl : string -> bool.

(** [validDataUrl(v) ? v : ""] *)
Definition image_src (v : option string) : string :=
  match v with Some s => if validDataUrl s then s else "" | None => "" end.

(** [renderHeaderAndFooter(timelineData)] with [let [timeline] = timelineData]:
    reading a field of an [undefined] [timeline] throws. *)
Definition renderHeaderAndFooter (layout : string) (timelineData : list TimelineData)
  : js_result banner :=
  let timeline := hd_error timelineData in
  if String.eqb (js_toLowerCase layout) "header" then
    match timeline with
    | Some t => JOk (HeaderBanner (image_src (ev_HeaderImage t)))
    | None => JThrow TypeError
    end
  else if String.eqb (js_toLowerCase layout) "footer" then
    match timeline with
    | Some t => JOk (FooterBanner (image_src (ev_FooterImage t)))
    | None => JThrow TypeError
    end
  else JOk NoBanner.
End HeaderFooter.
End Strings.

(* ------------------------------------------------------------------ *)
(** ** The second [Visual] class of the file (lines 667-1169)

    Its [TimelineData] has no [CompanyLink], and its [CONVERTER] tests six
    roles. *)

Record TimelineData2 := {
  ev2_Company : string;
  ev2_Type : string;
  ev2_Description : option string;
  ev2_Date : option jsdate;
  ev2_HeaderImage : option string;
  ev2_FooterImage : option string;
  ev2_selectionId : nat }.

Record role_indices2 := {
  companyIndex2 : Z; typeIndex2 : Z; descIndex2 : Z;
  dateIndex2 : Z; headerImageIndex2 : Z; footerImageIndex2 : Z }.

Definition no_indices2 : role_indices2 := Build_role_indices2 (-1) (-1) (-1) (-1) (-1) (-1).

Definition bind_column2 (ix : role_indices2) (ti : Z) (c : column) : role_indices2 :=
  let '(Build_role_indices2 co ty de da hi fi) := ix in
  if hasRole c CompanyRole then Build_role_indices2 ti ty de da hi fi
  else if hasRole c TypeRole then Build_role_indices2 co ti de da hi fi
  else if hasRole c DescriptionRole then Build_role_indices2 co ty ti da hi fi
  else if hasRole c DateRole then Build_role_indices2 co ty de ti hi fi
  else if hasRole c HeaderImageRole then Build_role_indices2 co ty de da ti fi
  else if hasRole c FooterImageRole then Build_role_indices2 co ty de da hi ti
  else ix.

Fixpoint bind_columns_from2 (ix : role_indices2) (ti : Z) (cols : list column) : role_indices2 :=
  match cols with
  | [] => ix
  | c :: cols' => bind_columns_from2 (bind_column2 ix ti c) (ti + 1) cols'
  end.

Definition bind_roles2 (cols : list column) : role_indices2 := bind_columns_from2 no_indices2 0 cols.

Section Converter2.
Variable date_parse : string -> option Z.

Definition convert_row2 (ix : role_indices2) (i : nat) (row : list jsval)
  : js_result TimelineData2 :=
  company <- js_toString (row_at row (companyIndex2 ix)) ;;
  JOk {| ev2_Company := company;
         ev2_Type := match cell_or (row_at row (typeIndex2 ix)) None with
                     | Some s => s | None => ""%string end;
         ev2_Description := cell_or (row_at row (descIndex2 ix)) None;
         ev2_Date := date_cell date_parse (row_at row (dateIndex2 ix));
         ev2_HeaderImage := cell_or (row_at row (headerImageIndex2 ix)) None;
         ev2_FooterImage := cell_or (row_at row (footerImageIndex2 ix)) None;
         ev2_selectionId := i |}.

Fixpoint convert_rows2 (ix : role_indices2) (i : nat) (rows : list (list jsval))
  : js_result (list TimelineData2) :=
  match rows with
  | [] => JOk []
  | row :: rows' =>
      dp <- convert_row2 ix i row ;;
      rest <- convert_rows2 ix (S i) rows' ;;
      JOk (dp :: rest)
  end.

(** [Visual.CONVERTER] of the second class. *)
Definition CONVERTER2 (cols : list column) (rows : list (list jsval))
  : js_result (list TimelineData2) :=
  convert_rows2 (bind_roles2 cols) 0 rows.
End Converter2.

(** An event of the first class seen through the second class's type. *)
Definition drop_link (d : TimelineData) : TimelineData2 :=
  {| ev2_Company := ev_Company d; ev2_Type := ev_Type d; ev2_Description := ev_Description d;
     ev2_Date := ev_Date d; ev2_HeaderImage := ev_HeaderImage d;
     ev2_FooterImage := ev_FooterImage d; ev2_selectionId := ev_selectionId d |}.

(* ------------------------------------------------------------------ *)
(** A character that starts a string on which unary [+] gives [NaN]:
    an ASCII letter other than the [I] of [Infinity]. *)
Definition is_upper_or_lower_letter_not_I (c : ascii) : bool :=
  let n := nat_of_ascii c in
  ((65 <=? n)%nat && (n <=? 90)%nat || (97 <=? n)%nat && (n <=? 122)%nat) && negb (n =? 73)%nat.

(** The column indices of the first class seen through the second class's
    record, which has no CompanyLink index. *)
Definition indices_without_link (ix : role_indices) : role_indices2 :=
  Build_role_indices2 (companyIndex ix) (typeIndex ix) (descIndex ix)
                      (dateIndex ix) (headerImageIndex ix) (footerImageIndex ix).

(** A column whose CompanyLink role would, in the second class's chain,
    let it fall through to the Date, HeaderImage or FooterImage test. *)
Definition link_column_ok (c : column) : Prop :=
  hasRole c CompanyLinkRole = true ->
  hasRole c DateRole = false /\ hasRole c HeaderImageRole = false /\ hasRole c FooterImageRole = false.

(* ------------------------------------------------------------------ *)
(** ** Reference definitions for comparison *)

(** The lane rule in the words of the spec, for a 0-based index:
    even [i] with [count = i/2], odd [i] with [count = ceil(i/2)]. *)
Definition spec_lane (i : nat) : lane :=
  if Nat.even i then
    if Nat.even (Nat.div i 2) then FarNegative else NearNegative
  else
    if Nat.even (Nat.div (i + 1) 2) then FarPositive else NearPositive.

(** The order in which [CONVERTER]'s [if / else if] chain tests the roles,
    and the role a column is bound to under it. *)
Definition role_chain : list role :=
  [CompanyRole; TypeRole; DescriptionRole; CompanyLinkRole; DateRole;
   HeaderImageRole; FooterImageRole].

Definition first_role (c : column) : option role := find (hasRole c) role_chain.

Definition role_opt_eqb (a : option role) (r : role) : bool :=
  match a with Some a => role_eqb a r | None => false end.

(** The index of the last column, from [ti] on, bound to [r]; [acc] if none. *)
Fixpoint last_column_for (r : role) (ti : Z) (cols : list column) (acc : Z) : Z :=
  match cols with
  | [] => acc
  | c :: cols' => last_column_for r (ti + 1) cols' (if role_opt_eqb (first_role c) r then ti else acc)
  end.

(** The Date of January 1 of year [y], at midnight. *)
Definition jan1_date (y : Z) : jsdate := Valid (days_jan1 y * ms_per_day).

(** A date field holding no time value past the Date range; every Date
    the pipeline builds satisfies it, since the constructors clip. *)
Definition date_in_range (d : option jsdate) : Prop :=
  match d with Some (Valid t) => Z.abs t <= max_time_value | _ => True end.

(** January 1 of [y] is a representable Date (|t| <= 8.64e15). *)
Definition jan1_in_range (y : Z) : Prop := Z.abs (days_jan1 y * ms_per_day) <= max_time_value.

(** The span in years as the spec words it:
    [round(|maxDate - minDate| in days / 365.25)]. *)
Definition spec_years_span (a b : Z) : Z := js_round_div (4 * Z.abs (b - a)) (ms_per_day * 1461).

(** The year of an event's date ([None]: null date or NaN year). *)
Definition event_year (d : TimelineData) : option Z :=
  match ev_Date d with Some dt => getFullYear dt | None => None end.

Definition year_num (d : TimelineData) : jsnum :=
  match event_year d with Some y => Fin y | None => NaN end.

Definition num_year (n : jsnum) : option Z :=
  match n with Fin y => Some y | _ => None end.

(** The configured window test in the words of the spec, reading the
    bounds through [new Date(y, 0, 1)]. *)
Definition spec_in_window (lo hi : Z) (d : TimelineData) : bool :=
  match event_year d with
  | Some y => (ctor_year lo <=? y) && (y <=? ctor_year hi)
  | None => false
  end.

(** Smallest and largest event year ([Math.min]/[Math.max] over the
    years: NaN as soon as one year is NaN). *)
Definition spec_min_year (data : list TimelineData) : option Z :=
  num_year (math_min (map year_num data)).
Definition spec_max_year (data : list TimelineData) : option Z :=
  num_year (math_max (map year_num data)).

(** A sample event dated by an ISO date string. *)
Definition event_on (company date : string) : TimelineData :=
  {| ev_Company := company; ev_Type := ""%string; ev_Description := None;
     ev_CompanyLink := None;
     ev_Date := Some (match parse_iso_date date with Some t => Valid t | None => Invalid end);
     ev_HeaderImage := None; ev_FooterImage := None; ev_selectionId := 0 |}.

(* ------------------------------------------------------------------ *)
(** ** Calendar facts *)

Lemma days_jan1_step y : 365 <= days_jan1 (y + 1) - days_jan1 y <= 366.
Proof. unfold days_jan1. replace (y + 1 - 1) with y by lia. Z.div_mod_to_equations. lia. Qed.

Lemma days_jan1_lt y y' : y < y' -> days_jan1 y < days_jan1 y'.
Proof.
  intros H. unfold days_jan1. Z.div_mod_to_equations. lia.
Qed.

Lemma year_of_days_spec d : days_jan1 (year_of_days d) <= d < days_jan1 (year_of_days d + 1).
Proof.
  unfold year_of_days.
  set (g := 1970 + 400 * d / 146097).
  assert (Hlo : days_jan1 (g - 1) <= d) by (unfold g, days_jan1; Z.div_mod_to_equations; lia).
  assert (Hhi : d < days_jan1 (g + 2)) by (unfold g, days_jan1; Z.div_mod_to_equations; lia).
  destruct (d <? days_jan1 g) eqn:E1.
  - apply Z.ltb_lt in E1. replace (g - 1 + 1) with g by lia. lia.
  - apply Z.ltb_ge in E1. destruct (days_jan1 (g + 1) <=? d) eqn:E2.
    + apply Z.leb_le in E2. replace (g + 1 + 1) with (g + 2) by lia. lia.
    + apply Z.leb_gt in E2. lia.
Qed.

(** A year is determined by any day inside it. *)
Lemma year_of_days_unique y d :
  days_jan1 y <= d < days_jan1 (y + 1) -> year_of_days d = y.
Proof.
  intros [H1 H2]. pose proof (year_of_days_spec d) as [H3 H4].
  destruct (Z.lt_trichotomy (year_of_days d) y) as [Hlt|[Heq|Hgt]]; auto.
  - assert (days_jan1 (year_of_days d + 1) <= days_jan1 y).
    { destruct (Z.eq_dec (year_of_days d + 1) y) as [->|Hne]; [lia|].
      pose proof (days_jan1_lt (year_of_days d + 1) y). lia. }
    lia.
  - assert (days_jan1 (y + 1) <= days_jan1 (year_of_days d)).
    { destruct (Z.eq_dec (y + 1) (year_of_days d)) as [->|Hne]; [lia|].
      pose proof (days_jan1_lt (y + 1) (year_of_days d)). lia. }
    lia.
Qed.

Lemma year_of_days_mono d d' : d <= d' -> year_of_days d <= year_of_days d'.
Proof.
  intros H. pose proof (year_of_days_spec d). pose proof (year_of_days_spec d').
  destruct (Z_le_gt_dec (year_of_days d) (year_of_days d')) as [|Hgt]; auto.
  assert (days_jan1 (year_of_days d' + 1) <= days_jan1 (year_of_days d)).
  { destruct (Z.eq_dec (year_of_days d' + 1) (year_of_days d)) as [->|Hne]; [lia|].
    pose proof (days_jan1_lt (year_of_days d' + 1) (year_of_days d)). lia. }
  lia.
Qed.

Lemma days_before_month_0 y : days_before_month y 0 = 0.
Proof. reflexivity. Qed.

Lemma time_clip_ok t : Z.abs t <= max_time_value -> time_clip t = Valid t.
Proof. intros H. unfold time_clip. apply Z.leb_le in H. rewrite H. reflexivity. Qed.

Lemma time_clip_out t : max_time_value < Z.abs t -> time_clip t = Invalid.
Proof. intros H. unfold time_clip. apply Z.leb_gt in H. rewrite H. reflexivity. Qed.

(** [new Date(y, 0, 1)] is January 1 of [y] read through the two-digit
    rule, clipped to the time-value range. *)
Lemma new_date_jan1 y : new_date (Some y) (Some 0) 1 = time_clip (days_jan1 (ctor_year y) * ms_per_day).
Proof.
  unfold new_date. cbv zeta. change (0 / 12) with 0. change (0 mod 12) with 0. change (1 - 1) with 0.
  rewrite !Z.add_0_r. reflexivity.
Qed.

(** The year of a Date built on January 1 of [y]. *)
Lemma getFullYear_jan1_date y : getFullYear (Valid (days_jan1 y * ms_per_day)) = Some y.
Proof.
  unfold getFullYear. f_equal.
  unfold ms_per_day. rewrite Z.div_mul by lia. apply year_of_days_unique.
  pose proof (days_jan1_step y). lia.
Qed.

(** [new Date(y, 0, 1).getFullYear()] reads the year through the
    two-digit rule, as long as that January 1 is a representable Date. *)
Lemma getFullYear_jan1 y :
  jan1_in_range (ctor_year y) -> getFullYear (new_date (Some y) (Some 0) 1) = Some (ctor_year y).
Proof.
  intros H. rewrite new_date_jan1, time_clip_ok by exact H. apply getFullYear_jan1_date.
Qed.

Lemma getFullYear_jan1_out y :
  ~ jan1_in_range (ctor_year y) -> getFullYear (new_date (Some y) (Some 0) 1) = None.
Proof.
  intros H. rewrite new_date_jan1, time_clip_out; [reflexivity|]. unfold jan1_in_range in H. lia.
Qed.

Lemma days_jan1_le y y' : y <= y' -> days_jan1 y <= days_jan1 y'.
Proof. intros H. destruct (Z.eq_dec y y') as [->|Hne]; [lia|]. apply Z.lt_le_incl, days_jan1_lt. lia. Qed.

(** January 1 is a representable Date for the years -271820 to 275760. *)
Lemma jan1_in_range_between y : -271820 <= y <= 275760 -> jan1_in_range y.
Proof.
  intros H. unfold jan1_in_range, max_time_value, ms_per_day.
  pose proof (days_jan1_le (-271820) y ltac:(lia)) as H1.
  pose proof (days_jan1_le y 275760 ltac:(lia)) as H2.
  change (days_jan1 (-271820)) with (-99999744) in H1.
  change (days_jan1 275760) with 99999744 in H2. lia.
Qed.

(* ------------------------------------------------------------------ *)
(** ** Placement by index *)

Lemma mapi_from_index {A B} (f : Z -> B) (i : Z) (l : list A) :
  mapi_from (fun j _ => f j) i l = map (fun k => f (i + Z.of_nat k)) (seq 0 (List.length l)).
Proof.
  revert i. induction l as [|x l IH]; intros i; [reflexivity|].
  simpl. rewrite Z.add_0_r, IH. f_equal.
  rewrite <- seq_shift, map_map. apply map_ext. intros k. f_equal. lia.
Qed.

Lemma box_y_period (z : Z) : box_y (z + 4) = box_y z.
Proof.
  unfold box_y, ceil_half.
  replace ((z + 4) mod 2) with (z mod 2) by (Z.div_mod_to_equations; lia).
  replace ((z + 4) / 2) with (z / 2 + 2) by (Z.div_mod_to_equations; lia).
  replace ((z / 2 + 2) mod 2) with ((z / 2) mod 2) by (Z.div_mod_to_equations; lia).
  replace (- (- (z + 4) / 2)) with (- (- z / 2) + 2) by (Z.div_mod_to_equations; lia).
  replace ((- (- z / 2) + 2) mod 2) with ((- (- z / 2)) mod 2) by (Z.div_mod_to_equations; lia).
  reflexivity.
Qed.

Lemma even_plus_4 (n : nat) : Nat.even (n + 4) = Nat.even n.
Proof. rewrite Nat.even_add. destruct (Nat.even n); reflexivity. Qed.

Lemma even_plus_2 (n : nat) : Nat.even (n + 2) = Nat.even n.
Proof. rewrite Nat.even_add. destruct (Nat.even n); reflexivity. Qed.

Lemma spec_lane_period (i : nat) : spec_lane (i + 4) = spec_lane i.
Proof.
  unfold spec_lane. rewrite even_plus_4.
  replace (Nat.div (i + 4) 2) with (Nat.div i 2 + 2)%nat
    by (replace (i + 4)%nat with (i + 2 * 2)%nat by lia; rewrite Nat.div_add; lia).
  replace (Nat.div (i + 4 + 1) 2) with (Nat.div (i + 1) 2 + 2)%nat
    by (replace (i + 4 + 1)%nat with (i + 1 + 2 * 2)%nat by lia; rewrite Nat.div_add; lia).
  rewrite !even_plus_2. reflexivity.
Qed.

Lemma box_y_spec_lane (i : nat) : box_y (Z.of_nat i) = lane_y (spec_lane i).
Proof.
  induction i as [i IH] using (well_founded_induction lt_wf).
  destruct (Nat.lt_ge_cases i 4) as [Hlt|Hge].
  - destruct i as [|[|[|[|i]]]]; try reflexivity. lia.
  - replace i with ((i - 4) + 4)%nat by lia.
    rewrite spec_lane_period, Nat2Z.inj_add, box_y_period. apply IH. lia.
Qed.

(** C1 (amended).  The logical y of every box, and of the far end of its
    connector line, depends only on the box's 0-based index [i] and
    follows the spec's parity rule ([count = i/2] for even [i],
    [count = ceil(i/2)] for odd [i]); for [i = 0..7] the lanes are
    FarNegative, NearPositive, NearNegative, FarPositive, FarNegative,
    NearPositive, NearNegative, FarPositive. *)
Theorem lane_by_index :
  (forall timelineData : list TimelineData,
      box_ys timelineData = map (fun i => lane_y (spec_lane i)) (seq 0 (List.length timelineData))) /\
  (forall i : nat, box_y (Z.of_nat i) = lane_y (spec_lane i) /\
                   line_y2 (Z.of_nat i) = box_y (Z.of_nat i)) /\
  map (fun i => box_y (Z.of_nat i)) (seq 0 8) =
    map lane_y [FarNegative; NearPositive; NearNegative; FarPositive;
                FarNegative; NearPositive; NearNegative; FarPositive].
Proof.
  split; [|split].
  - intros data. unfold box_ys. rewrite mapi_from_index. apply map_ext.
    intros k. apply box_y_spec_lane.
  - intros i. split; [apply box_y_spec_lane | reflexivity].
  - reflexivity.
Qed.

(** C1 counterexample: the box at index 1 is placed on the near lane
    above the axis (logical y 40), not on the far one (logical y 90). *)
Lemma lane_index1_not_far :
  box_y 1 = lane_y NearPositive /\ box_y 1 <> lane_y FarPositive.
Proof. split; [reflexivity | discriminate]. Qed.

(* ------------------------------------------------------------------ *)
(** ** The x end points of a connector line *)

(** When the x scale maps an event's date to NaN, both x end points of
    its connector line are 0 (the [isNaN] guard of [x1] and [x2]). *)
Lemma line_x_nan_clamped (xScale : option jsdate -> pixel) (i : Z) (d : TimelineData) :
  xScale (ev_Date d) = PNaN ->
  let '(x1, _, x2, _) := time_range_line xScale i d in x1 = 0%Q /\ x2 = 0%Q.
Proof. intros H. unfold time_range_line. rewrite H. split; reflexivity. Qed.

(* ------------------------------------------------------------------ *)
(** ** Column roles *)

Lemma bind_column_index ix ti c r :
  index_of_role (bind_column ix ti c) r =
  if role_opt_eqb (first_role c) r then ti else index_of_role ix r.
Proof.
  destruct ix as [co ty de cl da hi fi]. unfold bind_column, first_role. simpl.
  destruct (hasRole c CompanyRole); [destruct r; reflexivity|].
  destruct (hasRole c TypeRole); [destruct r; reflexivity|].
  destruct (hasRole c DescriptionRole); [destruct r; reflexivity|].
  destruct (hasRole c CompanyLinkRole); [destruct r; reflexivity|].
  destruct (hasRole c DateRole); [destruct r; reflexivity|].
  destruct (hasRole c HeaderImageRole); [destruct r; reflexivity|].
  destruct (hasRole c FooterImageRole); destruct r; reflexivity.
Qed.

Lemma bind_columns_from_index ix ti cols r :
  index_of_role (bind_columns_from ix ti cols) r = last_column_for r ti cols (index_of_role ix r).
Proof.
  revert ix ti. induction cols as [|c cols IH]; intros ix ti; [reflexivity|].
  simpl. rewrite IH, bind_column_index. reflexivity.
Qed.

(** C9 (amended).  Every role is bound to a single column index: the
    index of the last column, in column order, whose first role in the
    order Company, Type, Description, CompanyLink, Date, HeaderImage,
    FooterImage is that role, or -1 when there is none.  So among several
    columns carrying a role the last one wins. *)
Theorem role_binds_last_match (cols : list column) (r : role) :
  index_of_role (bind_roles cols) r = last_column_for r 0 cols (-1).
Proof. unfold bind_roles. rewrite bind_columns_from_index. destruct r; reflexivity. Qed.

(** C9 counterexample: with two Company columns, Company is bound to the
    second one (index 1), not the first. *)
Lemma role_duplicate_second_wins :
  companyIndex (bind_roles [{| roles := [CompanyRole] |}; {| roles := [CompanyRole] |}]) = 1
  /\ companyIndex (bind_roles [{| roles := [CompanyRole] |}; {| roles := [CompanyRole] |}]) <> 0.
Proof. split; [reflexivity | discriminate]. Qed.

(* ------------------------------------------------------------------ *)
(** ** Year colours *)

Lemma colorOf_color_rows n year i y :
  colorOf (color_rows n year i) y =
  if (year <=? y) && (y <? year + Z.of_nat n)
  then Some (nth_error colors (i + Z.to_nat (y - year))) else None.
Proof.
  revert year i. induction n as [|n IH]; intros year i.
  - simpl. destruct ((year <=? y) && (y <? year + 0)) eqn:E; [|reflexivity].
    apply andb_true_iff in E as [E1 E2]. apply Z.leb_le in E1. apply Z.ltb_lt in E2. lia.
  - unfold colorOf in *. simpl. destruct (year =? y) eqn:Ey.
    + apply Z.eqb_eq in Ey. subst y. simpl.
      replace ((year <=? year) && (year <? year + Z.pos (Pos.of_succ_nat n))) with true
        by (symmetry; apply andb_true_iff; split; [apply Z.leb_le | apply Z.ltb_lt]; lia).
      rewrite Z.sub_diag, Nat.add_0_r. reflexivity.
    + rewrite IH. apply Z.eqb_neq in Ey.
      destruct (Z.leb_spec (year + 1) y), (Z.leb_spec year y),
               (Z.ltb_spec y (year + 1 + Z.of_nat n)), (Z.ltb_spec y (year + Z.pos (Pos.of_succ_nat n)));
        cbn [andb]; try lia; try reflexivity.
      replace (S i + Z.to_nat (y - (year + 1)))%nat with (i + Z.to_nat (y - year))%nat
        by lia.
      reflexivity.
Qed.

Lemma colors_defined k : (k < 15)%nat -> nth_error colors k <> None.
Proof. intros Hk. apply nth_error_Some. exact Hk. Qed.

(** C3 (amended).  For a window whose bounds have years [lo] and [hi],
    the colour table has one entry for each year from [lo] to [hi + 1]
    and none for any other year; the year [y] gets exactly
    [colors[y - lo]]: the palette index starts at 0 and grows by one per
    year without wrapping.  So every year 15 or more past [lo] gets
    [undefined] ([nth_error] past the 15 colours is [None]), and for a
    year [y] below [lo + 15] with [y + 15 <= hi + 1], [y] and [y + 15]
    get different colours. *)
Theorem year_color_by_offset (minDate maxDate : jsdate) (lo hi : Z) :
  getFullYear minDate = Some lo -> getFullYear maxDate = Some hi ->
  (forall y, lo <= y <= hi + 1 ->
     colorOf (getColorDataByYear minDate maxDate) y = Some (nth_error colors (Z.to_nat (y - lo)))) /\
  (forall y, y < lo \/ hi + 1 < y -> colorOf (getColorDataByYear minDate maxDate) y = None) /\
  (forall y, lo + 15 <= y <= hi + 1 -> colorOf (getColorDataByYear minDate maxDate) y = Some None) /\
  (forall y, lo <= y < lo + 15 -> y + 15 <= hi + 1 ->
     colorOf (getColorDataByYear minDate maxDate) y <>
     colorOf (getColorDataByYear minDate maxDate) (y + 15)).
Proof.
  intros Hlo Hhi.
  assert (Hin : forall y, lo <= y <= hi + 1 ->
     colorOf (getColorDataByYear minDate maxDate) y = Some (nth_error colors (Z.to_nat (y - lo)))).
  { intros y Hy. unfold getColorDataByYear. rewrite Hlo, Hhi, colorOf_color_rows.
    replace ((lo <=? y) && (y <? lo + Z.of_nat (Z.to_nat (hi + 1 - lo + 1)))) with true
      by (symmetry; apply andb_true_iff; split; [apply Z.leb_le | apply Z.ltb_lt]; lia).
    reflexivity. }
  assert (Hnone : forall y, lo + 15 <= y <= hi + 1 ->
     colorOf (getColorDataByYear minDate maxDate) y = Some None).
  { intros y Hy. rewrite Hin by lia. f_equal. apply nth_error_None.
    change (List.length colors) with 15%nat. lia. }
  split; [exact Hin|]. split; [|split; [exact Hnone|]].
  - intros y Hy. unfold getColorDataByYear. rewrite Hlo, Hhi, colorOf_color_rows.
    replace ((lo <=? y) && (y <? lo + Z.of_nat (Z.to_nat (hi + 1 - lo + 1)))) with false
      by (symmetry; destruct (Z.leb_spec lo y), (Z.ltb_spec y (lo + Z.of_nat (Z.to_nat (hi + 1 - lo + 1))));
          simpl; try reflexivity; lia).
    reflexivity.
  - intros y Hy Hy15. rewrite Hin by lia. rewrite Hnone by lia.
    intros Heq. injection Heq as Heq. revert Heq. apply colors_defined. lia.
Qed.

Lemma year_color_by_offset_witness :
  getFullYear (new_date (Some 2000) (Some 0) 1) = Some 2000 /\
  getFullYear (new_date (Some 2040) (Some 0) 1) = Some 2040 /\
  let table := getColorDataByYear (new_date (Some 2000) (Some 0) 1) (new_date (Some 2040) (Some 0) 1) in
  (forall y, 2000 <= y <= 2040 + 1 -> colorOf table y = Some (nth_error colors (Z.to_nat (y - 2000)))) /\
  (forall y, y < 2000 \/ 2040 + 1 < y -> colorOf table y = None) /\
  (forall y, 2000 + 15 <= y <= 2040 + 1 -> colorOf table y = Some None) /\
  (forall y, 2000 <= y < 2000 + 15 -> y + 15 <= 2040 + 1 -> colorOf table y <> colorOf table (y + 15)).
Proof.
  assert (H1 : getFullYear (new_date (Some 2000) (Some 0) 1) = Some 2000) by reflexivity.
  assert (H2 : getFullYear (new_date (Some 2040) (Some 0) 1) = Some 2040) by reflexivity.
  split; [exact H1|]. split; [exact H2|].
  exact (year_color_by_offset _ _ 2000 2040 H1 H2).
Defined.

(** C3 counterexample: over the window 2000-2014 the colours are assigned
    to 2000..2015; 2000 gets the first palette colour but 2015, fifteen
    years later, gets [undefined]. *)
Lemma year_color_no_wrap :
  let table := getColorDataByYear (new_date (Some 2000) (Some 0) 1) (new_date (Some 2014) (Some 0) 1) in
  colorOf table 2000 = Some (Some "#242B47"%string) /\ colorOf table 2015 = Some None /\
  colorOf table 2000 <> colorOf table (2000 + 15).
Proof. vm_compute. split; [reflexivity|]. split; [reflexivity|]. discriminate. Qed.

(* ------------------------------------------------------------------ *)
(** ** Axis granularity *)

Lemma diff_years_whole_days (a b : Z) :
  a mod ms_per_day = 0 -> b mod ms_per_day = 0 ->
  (Z.abs (js_round_div (4 * (a - b)) (ms_per_day * 1461)) <=? 1) = (spec_years_span a b <=? 1).
Proof.
  intros Ha Hb. unfold spec_years_span, js_round_div, ms_per_day in *.
  apply Z.mod_divide in Ha as [ka ->]; [|lia]. apply Z.mod_divide in Hb as [kb ->]; [|lia].
  apply eq_iff_eq_true. rewrite !Z.leb_le.
  Z.div_mod_to_equations. split; intros; lia.
Qed.

(** C5.  For the window bounds the pipeline passes (local midnights,
    i.e. time values that are whole days), the axis is monthly exactly
    when [round(|maxDate - minDate| in days / 365.25) <= 1], over the domain
    [new Date(min.year, min.month - 1, 1)] .. [new Date(max.year, max.month + 1, 1)];
    otherwise it is yearly over the window itself.  In particular the
    window from January 1 of a year to January 1 of the next one is
    monthly. *)
Theorem axis_granularity_rule (a b gWidth : Z) :
  a mod ms_per_day = 0 -> b mod ms_per_day = 0 ->
  renderXAxis (Valid a) (Valid b) gWidth =
    (if spec_years_span a b <=? 1 then
       {| granularity_of := Month;
          domain := (new_date (getFullYear (Valid a)) (option_map (fun m => m - 1) (getMonth (Valid a))) 1,
                     new_date (getFullYear (Valid b)) (option_map (fun m => m + 1) (getMonth (Valid b))) 1);
          range := (margin_left, gWidth) |}
     else
       {| granularity_of := Year; domain := (Valid a, Valid b); range := (margin_left, gWidth) |}) /\
  (forall y : Z, granularity_of (renderXAxis (jan1_date y) (jan1_date (y + 1)) gWidth) = Month).
Proof.
  intros Ha Hb. split.
  - unfold renderXAxis, diff_years. rewrite diff_years_whole_days by assumption. reflexivity.
  - intros y. unfold renderXAxis, diff_years, jan1_date.
    rewrite diff_years_whole_days by (apply Z.mod_mul; unfold ms_per_day; lia).
    replace (spec_years_span (days_jan1 y * ms_per_day) (days_jan1 (y + 1) * ms_per_day) <=? 1)
      with true; [reflexivity|].
    symmetry. apply Z.leb_le. pose proof (days_jan1_step y).
    unfold spec_years_span, js_round_div, ms_per_day.
    rewrite Z.abs_eq by lia. Z.div_mod_to_equations. lia.
Qed.

Lemma axis_granularity_rule_witness :
  (days_jan1 2024 * ms_per_day) mod ms_per_day = 0 /\
  (days_jan1 2025 * ms_per_day) mod ms_per_day = 0 /\
  granularity_of (renderXAxis (Valid (days_jan1 2024 * ms_per_day))
                              (Valid (days_jan1 2025 * ms_per_day)) 500) = Month.
Proof.
  split; [reflexivity|]. split; [reflexivity|].
  destruct (axis_granularity_rule (days_jan1 2024 * ms_per_day) (days_jan1 2025 * ms_per_day) 500
              eq_refl eq_refl) as [H _].
  rewrite H. reflexivity.
Defined.

(* ------------------------------------------------------------------ *)
(** ** Extraction *)

(** A table with a Company and a Date column. *)
Definition company_date_columns : list column :=
  [{| roles := [CompanyRole] |}; {| roles := [DateRole] |}].

(** C7: the Company cell is converted with an unguarded [toString()], so a
    row whose Company cell is [null] makes [CONVERTER] throw a TypeError,
    while the other fields of the same row are guarded. *)
Theorem converter_null_company_throws :
  CONVERTER parse_iso_date company_date_columns
    [[JStr "Acme"; JStr "2022-03-01"]; [JNull; JStr "2023-07-15"]] = JThrow TypeError
  /\ cell_or JNull None = None.
Proof. split; reflexivity. Qed.

(** C4: the same defect stops the extraction stage: a dataset of two rows
    yields no event list at all. *)
Theorem extract_two_rows_throws :
  extract parse_iso_date company_date_columns
    [[JStr "Acme"; JStr "2022-03-01"]; [JNull; JStr "2023-07-15"]] = JThrow TypeError.
Proof. reflexivity. Qed.

Lemma convert_rows_ok_length date_parse ix i rows evs :
  convert_rows date_parse ix i rows = JOk evs -> List.length evs = List.length rows.
Proof.
  revert i evs. induction rows as [|row rows IH]; intros i evs H.
  - simpl in H. injection H as <-. reflexivity.
  - simpl in H. destruct (convert_row date_parse ix i row); [|discriminate].
    simpl in H. destruct (convert_rows date_parse ix (S i) rows) eqn:E; [|discriminate].
    simpl in H. injection H as <-. simpl. f_equal. eapply IH. exact E.
Qed.

(** When no row throws, the extraction keeps the first [min(n, 100)]
    converted rows, in row order. *)
Lemma extract_ok_firstn date_parse cols rows evs :
  CONVERTER date_parse cols rows = JOk evs ->
  extract date_parse cols rows = JOk (firstn 100 evs) /\
  List.length (firstn 100 evs) = Nat.min 100 (List.length rows).
Proof.
  intros H. unfold extract. rewrite H. split; [reflexivity|].
  rewrite length_firstn. f_equal. eapply convert_rows_ok_length. exact H.
Qed.

(* ------------------------------------------------------------------ *)
(** ** Missing and unparsable dates *)

Lemma js_map_app {A B} (f : A -> js_result B) l1 l2 :
  js_map f (l1 ++ l2) = (a <- js_map f l1 ;; b <- js_map f l2 ;; JOk (a ++ b)).
Proof.
  induction l1 as [|x l1 IH]; simpl.
  - destruct (js_map f l2); reflexivity.
  - destruct (f x); simpl; [|reflexivity]. rewrite IH.
    destruct (js_map f l1); simpl; [|reflexivity].
    destruct (js_map f l2); reflexivity.
Qed.

Lemma filter_defined_app {A} (l1 l2 : list (option A)) :
  filter_defined (l1 ++ l2) = filter_defined l1 ++ filter_defined l2.
Proof. induction l1 as [|[x|] l1 IH]; simpl; rewrite ?IH; reflexivity. Qed.

Lemma keep_years_app test pre post :
  keep_years test (pre ++ post) =
  (l1 <- keep_years test pre ;; l2 <- keep_years test post ;; JOk (l1 ++ l2)).
Proof.
  unfold keep_years. rewrite js_map_app.
  destruct (js_map _ pre); simpl; [|reflexivity].
  destruct (js_map _ post); simpl; [|reflexivity].
  rewrite filter_defined_app. reflexivity.
Qed.

Lemma convert_row_ok date_parse ix i row c :
  js_toString (row_at row (companyIndex ix)) = JOk c ->
  exists dp, convert_row date_parse ix i row = JOk dp /\
             ev_Date dp = date_cell date_parse (row_at row (dateIndex ix)).
Proof. intros H. unfold convert_row. rewrite H. simpl. eexists. split; reflexivity. Qed.

(** C8 (amended).  A row whose date cell is falsy (missing) is extracted
    with [Date = null]; a row whose date cell is a non-empty string that
    [Date.parse] rejects is extracted with the Invalid Date, not [null].
    Both rows pass through extraction (given a Company value), and the two
    year filters of the date window drop an Invalid-Date event wherever it
    stands, without throwing. *)
Theorem date_missing_or_unparsable (date_parse : string -> option Z) (ix : role_indices)
  (i : nat) (row row' : list jsval) (c c' s : string) (lo : option Z) :
  js_toString (row_at row (companyIndex ix)) = JOk c ->
  truthy (row_at row (dateIndex ix)) = false ->
  js_toString (row_at row' (companyIndex ix)) = JOk c' ->
  row_at row' (dateIndex ix) = JStr s -> s <> ""%string -> date_parse s = None ->
  (exists dp, convert_row date_parse ix i row = JOk dp /\ ev_Date dp = None) /\
  (exists dp', convert_row date_parse ix i row' = JOk dp' /\ ev_Date dp' = Some Invalid /\
     forall pre post,
       keep_years (fun y => js_ge y lo) (pre ++ dp' :: post) =
         keep_years (fun y => js_ge y lo) (pre ++ post) /\
       keep_years (fun y => js_le y lo) (pre ++ dp' :: post) =
         keep_years (fun y => js_le y lo) (pre ++ post)).
Proof.
  intros Hc Hmiss Hc' Hs Hne Hp. split.
  - destruct (convert_row_ok date_parse ix i row c Hc) as [dp [H1 H2]].
    exists dp. split; [exact H1|]. rewrite H2. unfold date_cell. rewrite Hmiss. reflexivity.
  - destruct (convert_row_ok date_parse ix i row' c' Hc') as [dp [H1 H2]].
    assert (Hd : ev_Date dp = Some Invalid).
    { rewrite H2, Hs. unfold date_cell. simpl. rewrite Hp.
      destruct (String.eqb s "") eqn:E; [apply String.eqb_eq in E; contradiction|reflexivity]. }
    exists dp. split; [exact H1|]. split; [exact Hd|].
    intros pre post. rewrite !keep_years_app.
    assert (Hone : forall test, test None = false -> keep_years test (dp :: post) = keep_years test post).
    { intros test Ht. unfold keep_years. simpl. rewrite Hd. simpl. rewrite Ht.
      destruct (js_map _ post); reflexivity. }
    rewrite !Hone by (destruct lo; reflexivity). split; reflexivity.
Qed.

Lemma date_missing_or_unparsable_witness :
  let ix := bind_roles company_date_columns in
  let row := [JStr "Acme"; JNull] in
  let row' := [JStr "Beta"; JStr "not a date"] in
  js_toString (row_at row (companyIndex ix)) = JOk "Acme"%string /\
  truthy (row_at row (dateIndex ix)) = false /\
  js_toString (row_at row' (companyIndex ix)) = JOk "Beta"%string /\
  row_at row' (dateIndex ix) = JStr "not a date" /\ "not a date"%string <> ""%string /\
  parse_iso_date "not a date" = None /\
  ((exists dp, convert_row parse_iso_date ix 0 row = JOk dp /\ ev_Date dp = None) /\
   (exists dp', convert_row parse_iso_date ix 0 row' = JOk dp' /\ ev_Date dp' = Some Invalid /\
      forall pre post,
        keep_years (fun y => js_ge y (Some 2023)) (pre ++ dp' :: post) =
          keep_years (fun y => js_ge y (Some 2023)) (pre ++ post) /\
        keep_years (fun y => js_le y (Some 2023)) (pre ++ dp' :: post) =
          keep_years (fun y => js_le y (Some 2023)) (pre ++ post))).
Proof.
  do 4 (split; [reflexivity|]). split; [discriminate|]. split; [reflexivity|].
  apply (date_missing_or_unparsable parse_iso_date _ 0 _ _ "Acme" "Beta" "not a date" (Some 2023));
    first [reflexivity | discriminate].
Defined.

(** C8 counterexample: an unparsable date cell gives the Invalid Date,
    not [null]. *)
Lemma unparsable_date_not_null :
  date_cell parse_iso_date (JStr "not a date") = Some Invalid /\
  date_cell parse_iso_date (JStr "not a date") <> None.
Proof. split; [reflexivity | discriminate]. Qed.

(* ------------------------------------------------------------------ *)
(** ** The date window *)

Definition year_at (t : Z) : Z := year_of_days (t / ms_per_day).

Lemma year_at_mono t t' : t <= t' -> year_at t <= year_at t'.
Proof.
  intros H. unfold year_at. apply year_of_days_mono. apply Z.div_le_mono; [unfold ms_per_day; lia | exact H].
Qed.

Lemma year_at_min t t' : year_at (Z.min t t') = Z.min (year_at t) (year_at t').
Proof.
  destruct (Z.le_ge_cases t t') as [H|H].
  - rewrite Z.min_l, Z.min_l by (auto using year_at_mono). reflexivity.
  - rewrite Z.min_r, Z.min_r by (auto using year_at_mono). reflexivity.
Qed.

(** A time value whose year lies in -271820..275759 is within the Date range. *)
Lemma time_in_range_of_year t : -271820 <= year_at t <= 275759 -> Z.abs t <= max_time_value.
Proof.
  unfold year_at. intros H. pose proof (year_of_days_spec (t / ms_per_day)) as [H1 H2].
  pose proof (days_jan1_le (-271820) (year_of_days (t / ms_per_day)) ltac:(lia)) as H3.
  pose proof (days_jan1_le (year_of_days (t / ms_per_day) + 1) 275760 ltac:(lia)) as H4.
  change (days_jan1 (-271820)) with (-99999744) in H3.
  change (days_jan1 275760) with 99999744 in H4.
  pose proof (Z.div_mod t ms_per_day ltac:(unfold ms_per_day; lia)) as Hd.
  pose proof (Z.mod_pos_bound t ms_per_day ltac:(unfold ms_per_day; lia)) as Hm.
  unfold max_time_value. unfold ms_per_day in *. lia.
Qed.

Lemma year_at_max t t' : year_at (Z.max t t') = Z.max (year_at t) (year_at t').
Proof.
  destruct (Z.le_ge_cases t t') as [H|H].
  - rewrite Z.max_r, Z.max_r by (auto using year_at_mono). reflexivity.
  - rewrite Z.max_l, Z.max_l by (auto using year_at_mono). reflexivity.
Qed.

(** Running [Math.min]/[Math.max] over time values and over their years
    side by side. *)
Definition acc_rel (a1 a2 : jsnum) : Prop :=
  match a1, a2 with
  | NaN, NaN | PosInf, PosInf | NegInf, NegInf => True
  | Fin t, Fin y => y = year_at t /\ Z.abs t <= max_time_value
  | _, _ => False
  end.

Lemma acc_rel_year a1 a2 : acc_rel a1 a2 -> getFullYear (date_of_number a1) = num_year a2.
Proof.
  destruct a1, a2; simpl; intros H; try contradiction; try reflexivity.
  destruct H as [-> H]. rewrite time_clip_ok by exact H. reflexivity.
Qed.

Lemma js_min2_rel a1 a2 b1 b2 :
  acc_rel a1 a2 -> acc_rel b1 b2 -> acc_rel (js_min2 a1 b1) (js_min2 a2 b2).
Proof.
  destruct a1, a2, b1, b2; simpl; intros Ha Hb; try contradiction; try exact I;
    try (destruct Ha as [-> ?]); try (destruct Hb as [-> ?]); try (split; [reflexivity | lia]).
  split; [symmetry; apply year_at_min | lia].
Qed.

Lemma js_max2_rel a1 a2 b1 b2 :
  acc_rel a1 a2 -> acc_rel b1 b2 -> acc_rel (js_max2 a1 b1) (js_max2 a2 b2).
Proof.
  destruct a1, a2, b1, b2; simpl; intros Ha Hb; try contradiction; try exact I;
    try (destruct Ha as [-> ?]); try (destruct Hb as [-> ?]); try (split; [reflexivity | lia]).
  split; [symmetry; apply year_at_max | lia].
Qed.

Lemma number_year_rel d :
  ev_Date d <> None -> date_in_range (ev_Date d) ->
  acc_rel (number_of_date (ev_Date d)) (year_num d).
Proof.
  unfold year_num, event_year, date_in_range. destruct (ev_Date d) as [[|t]|]; simpl; intros H Hr;
    try exact I; try (split; [reflexivity | exact Hr]). contradiction.
Qed.

Lemma acc_rel_fold (step : jsnum -> jsnum -> jsnum)
  (Hstep : forall a1 a2 b1 b2, acc_rel a1 a2 -> acc_rel b1 b2 -> acc_rel (step a1 b1) (step a2 b2))
  (l : list TimelineData) : forall a1 a2,
  (forall d, In d l -> ev_Date d <> None) -> (forall d, In d l -> date_in_range (ev_Date d)) ->
  acc_rel a1 a2 ->
  acc_rel (fold_left step (map (fun d => number_of_date (ev_Date d)) l) a1)
          (fold_left step (map year_num l) a2).
Proof.
  induction l as [|d l IH]; intros a1 a2 Hnn Hrg Hr; simpl; [exact Hr|].
  apply IH; [intros; apply Hnn; right; assumption | intros; apply Hrg; right; assumption|].
  apply Hstep; [exact Hr|]. apply number_year_rel; [apply Hnn | apply Hrg]; left; reflexivity.
Qed.

(** With no null date, the fallback window is built from the smallest and
    largest event years. *)
Lemma data_window_years data :
  (forall d, In d data -> ev_Date d <> None) -> (forall d, In d data -> date_in_range (ev_Date d)) ->
  data_window data = (new_date (spec_min_year data) (Some 0) 1,
                      new_date (option_map (fun y => y + 1) (spec_max_year data)) (Some 0) 1).
Proof.
  intros Hnn Hrg. unfold data_window, spec_min_year, spec_max_year, math_min, math_max.
  rewrite (acc_rel_year _ _ (acc_rel_fold js_min2 js_min2_rel data PosInf PosInf Hnn Hrg I)).
  rewrite (acc_rel_year _ _ (acc_rel_fold js_max2 js_max2_rel data NegInf NegInf Hnn Hrg I)).
  reflexivity.
Qed.

(** With no null date, the year filters of [update] are plain filters. *)
Lemma keep_years_filter test data :
  (forall d, In d data -> ev_Date d <> None) ->
  keep_years test data = JOk (filter (fun d => test (event_year d)) data).
Proof.
  intros Hnn.
  assert (Hm : js_map (fun d => y <- date_year (ev_Date d) ;;
                                JOk (if test y then Some d else None)) data =
               JOk (map (fun d => if test (event_year d) then Some d else None) data)).
  { induction data as [|d data IH]; [reflexivity|].
    cbn [js_map]. rewrite IH by (intros; apply Hnn; right; assumption).
    unfold date_year, event_year.
    destruct (ev_Date d) as [dt|] eqn:E; [|exfalso; apply (Hnn d); [left|]; auto].
    simpl. rewrite E. reflexivity. }
  unfold keep_years. rewrite Hm. simpl. f_equal.
  clear. induction data as [|d data IH]; [reflexivity|].
  simpl. destruct (test (event_year d)); simpl; rewrite IH; reflexivity.
Qed.

Lemma filter_filter_andb {A} (f g : A -> bool) (l : list A) :
  filter g (filter f l) = filter (fun x => f x && g x) l.
Proof.
  induction l as [|x l IH]; [reflexivity|].
  simpl. destruct (f x); simpl; [destruct (g x); simpl; rewrite IH|rewrite IH]; reflexivity.
Qed.

Lemma filter_nil_existsb {A} (f : A -> bool) (l : list A) :
  filter f l = [] <-> existsb f l = false.
Proof.
  induction l as [|x l IH]; [simpl; tauto|].
  simpl. destruct (f x); simpl; [split; discriminate | exact IH].
Qed.

Lemma existsb_ext_fun {A} (f g : A -> bool) (l : list A) :
  (forall x, f x = g x) -> existsb f l = existsb g l.
Proof. intros H. induction l as [|x l IH]; simpl; [reflexivity | rewrite H, IH; reflexivity]. Qed.

(** For a non-empty list with no null date, [select_window] keeps the
    events whose year lies between [getFullYear] of the two candidate
    dates (a NaN bound keeps none); when none is kept it falls back to the
    window of the data and the whole list. *)
Lemma select_window_cases (currentYear PreviousYear FutureYear : Z) (data : list TimelineData) :
  data <> [] -> (forall d, In d data -> ev_Date d <> None) ->
  select_window currentYear PreviousYear FutureYear data =
  let minDate := new_date (Some (currentYear - PreviousYear)) (Some 0) 1 in
  let maxDate := new_date (Some (currentYear + FutureYear)) (Some 0) 1 in
  let inw := fun d => js_ge (event_year d) (getFullYear minDate) &&
                      js_le (event_year d) (getFullYear maxDate) in
  if existsb inw data then JOk (minDate, maxDate, filter inw data)
  else let '(a, b) := data_window data in JOk (a, b, data).
Proof.
  intros Hne Hnn. unfold select_window.
  destruct data as [|d0 rest] eqn:Hd; [contradiction|]. rewrite <- Hd in *.
  replace (0 <? Z.of_nat (List.length data)) with true
    by (symmetry; apply Z.ltb_lt; rewrite Hd; simpl; lia).
  rewrite keep_years_filter by exact Hnn. cbn [js_bind].
  rewrite keep_years_filter
    by (intros d Hin; apply filter_In in Hin as [Hin _]; apply Hnn; exact Hin).
  cbn [js_bind]. rewrite filter_filter_andb. cbv beta zeta.
  destruct (existsb _ data) eqn:Ex.
  - destruct (filter _ data) eqn:Ef.
    + apply filter_nil_existsb in Ef. congruence.
    + reflexivity.
  - apply filter_nil_existsb in Ex. rewrite Ex. reflexivity.
Qed.

(** The window rule in the words of the spec, for a non-empty list with no
    null date, event dates and both candidate dates within the Date range:
    when some event's year lies between the years of
    [new Date(currentYear - yearsBack, 0, 1)] and
    [new Date(currentYear + yearsForward, 0, 1)], the window is that pair
    and the working set is exactly those events, in order; otherwise the
    window is [new Date(minYear, 0, 1)], [new Date(maxYear + 1, 0, 1)] over
    the smallest and largest event years, and the working set is the whole
    list.  [new Date(y, 0, 1)] reads a year 0..99 as 1900..1999. *)
Lemma select_window_rule (currentYear PreviousYear FutureYear : Z)
  (data : list TimelineData) :
  data <> [] -> (forall d, In d data -> ev_Date d <> None) ->
  (forall d, In d data -> date_in_range (ev_Date d)) ->
  jan1_in_range (ctor_year (currentYear - PreviousYear)) ->
  jan1_in_range (ctor_year (currentYear + FutureYear)) ->
  select_window currentYear PreviousYear FutureYear data =
  let lo := currentYear - PreviousYear in
  let hi := currentYear + FutureYear in
  if existsb (spec_in_window lo hi) data then
    JOk (new_date (Some lo) (Some 0) 1, new_date (Some hi) (Some 0) 1,
         filter (spec_in_window lo hi) data)
  else
    JOk (new_date (spec_min_year data) (Some 0) 1,
         new_date (option_map (fun y => y + 1) (spec_max_year data)) (Some 0) 1, data).
Proof.
  intros Hne Hnn Hrg Hlo Hhi. rewrite select_window_cases by assumption. cbv zeta.
  rewrite !getFullYear_jan1 by assumption.
  assert (Hf : forall x, js_ge (event_year x) (Some (ctor_year (currentYear - PreviousYear))) &&
                         js_le (event_year x) (Some (ctor_year (currentYear + FutureYear)))
                         = spec_in_window (currentYear - PreviousYear) (currentYear + FutureYear) x).
  { intros x. unfold spec_in_window, js_ge, js_le. destruct (event_year x); reflexivity. }
  rewrite (existsb_ext_fun _ _ _ Hf), (filter_ext _ _ Hf).
  destruct (existsb _ data); [reflexivity|].
  rewrite data_window_years by assumption. reflexivity.
Qed.

(** C2 (code bug).  The fallback window is built with [new Date(y, 0, 1)],
    which reads a year 0..99 as 1900..1999, not January 1 of the smallest
    and of the largest event year plus one.  On the single row dated
    0050-06-01, with the configured window 2025..2034 holding no event,
    [update] takes the window 1950-01-01 .. 1951-01-01 instead of the
    years 50 and 51; the event, of the year 50, lies outside it, the year
    colour table (1950..1952) has no entry for it, and the [stroke] lookup
    of [renderTimeRangeLines] throws a TypeError. *)
Theorem fallback_window_two_digit_year :
  match update_layout parse_iso_date company_date_columns [[JStr "Old"; JStr "0050-06-01"]] 2026 1 8 500 with
  | JOk l =>
      window l = (jan1_date 1950, jan1_date 1951) /\
      window l <> (jan1_date 50, jan1_date 51) /\
      events l = [event_on "Old" "0050-06-01"] /\
      event_year (event_on "Old" "0050-06-01") = Some 50 /\
      renderTimeRangeLines (scaleTime (domain (xAxis l)) (range (xAxis l)))
        (colorDataByYear l) (events l) = JThrow TypeError
  | JThrow _ => False
  end.
Proof.
  vm_compute. split; [reflexivity|]. split; [discriminate|].
  split; [reflexivity|]. split; reflexivity.
Qed.

(* ------------------------------------------------------------------ *)
(** ** The stroke of a connector line with a NaN x *)

Lemma js_map_throws {A B} (f : A -> js_result B) (l : list A) (x : A) :
  In x l -> f x = JThrow TypeError -> js_map f l = JThrow TypeError.
Proof.
  induction l as [|y l IH]; intros Hin Hx; [destruct Hin|].
  cbn [js_map]. destruct Hin as [<-|Hin].
  - rewrite Hx. reflexivity.
  - destruct (f y) as [b|[]]; cbn [js_bind]; [|reflexivity].
    rewrite (IH Hin Hx). reflexivity.
Qed.

(** An event with an Invalid Date (a NaN x, whatever the scale) makes
    the [stroke] lookup of [renderTimeRangeLines] throw. *)
Lemma stroke_throws_invalid_date (xScale : option jsdate -> pixel) table data d :
  In d data -> ev_Date d = Some Invalid ->
  renderTimeRangeLines xScale table data = JThrow TypeError.
Proof.
  intros Hin Hd. unfold renderTimeRangeLines, line_strokes.
  rewrite (js_map_throws _ _ d Hin); [reflexivity|].
  unfold event_color, date_year. rewrite Hd. reflexivity.
Qed.

(** With an empty colour table (a window with an Invalid bound, where the
    x scale gives NaN for every event) any event makes it throw. *)
Lemma stroke_throws_empty_table (xScale : option jsdate -> pixel) data :
  data <> [] -> renderTimeRangeLines xScale [] data = JThrow TypeError.
Proof.
  intros Hne. destruct data as [|d data]; [contradiction|].
  unfold renderTimeRangeLines, line_strokes.
  rewrite (js_map_throws _ (d :: data) d (or_introl eq_refl)); [reflexivity|].
  unfold event_color, date_year. destruct (ev_Date d) as [dt|]; [|reflexivity].
  cbn [js_bind]. destruct (getFullYear dt); reflexivity.
Qed.

(** C10 (code bug).  [renderTimeRangeLines] clamps a NaN x of a
    connector line to 0, but in the same attribute chain the [stroke]
    callback reads [colorDataByYear.find(...).color] for the event, and
    for an event with a NaN x that lookup finds nothing and throws.  On
    the rows (Acme, "not a date") and (Beta, 2010-05-01), with the
    configured window 2025..2034, the window falls back to two Invalid
    Dates ([Math.min]/[Math.max] meet a NaN), the colour table is empty,
    the x scale gives NaN for both events, both x end points of both
    lines are 0, and the call throws a TypeError. *)
Theorem nan_x_line_stroke_throws :
  match update_layout parse_iso_date company_date_columns
          [[JStr "Acme"; JStr "not a date"]; [JStr "Beta"; JStr "2010-05-01"]] 2026 1 8 500 with
  | JOk l =>
      let xs := scaleTime (domain (xAxis l)) (range (xAxis l)) in
      window l = (Invalid, Invalid) /\ colorDataByYear l = [] /\
      map (fun d => ev_Date d) (events l) = [Some Invalid; ev_Date (event_on "Beta" "2010-05-01")] /\
      map (fun d => xs (ev_Date d)) (events l) = [PNaN; PNaN] /\
      map (fun '(x1, _, x2, _) => (x1, x2)) (mapi_from (time_range_line xs) 0 (events l))
        = [(0%Q, 0%Q); (0%Q, 0%Q)] /\
      renderTimeRangeLines xs (colorDataByYear l) (events l) = JThrow TypeError
  | JThrow _ => False
  end.
Proof.
  vm_compute. split; [reflexivity|]. split; [reflexivity|]. split; [reflexivity|].
  split; [reflexivity|]. split; reflexivity.
Qed.

(* ------------------------------------------------------------------ *)
(** ** Empty dataset *)

(** C6 (amended).  With zero rows, [update] does not stop early: the
    window falls back to two Invalid Dates ([Math.min]/[Math.max] of no
    dates), the year colour table is empty, and an x scale is still built,
    yearly ([NaN <= 1] is false) over the invalid window; these steps throw
    nothing. *)
Theorem empty_rows_layout (date_parse : string -> option Z) (cols : list column)
  (currentYear PreviousYear FutureYear gWidth : Z) :
  update_layout date_parse cols [] currentYear PreviousYear FutureYear gWidth =
  JOk {| window := (Invalid, Invalid);
         colorDataByYear := [];
         xAxis := {| granularity_of := Year; domain := (Invalid, Invalid);
                     range := (margin_left, gWidth) |};
         events := [] |}.
Proof. reflexivity. Qed.

(** C6 counterexample: for an empty dataset an x scale is computed (and
    the window exists, as two Invalid Dates). *)
Lemma empty_rows_axis_built :
  match update_layout parse_iso_date company_date_columns [] 2026 1 8 500 with
  | JOk l => granularity_of (xAxis l) = Year /\ domain (xAxis l) = (Invalid, Invalid)
  | JThrow _ => False
  end.
Proof. vm_compute. split; reflexivity. Qed.

(* ------------------------------------------------------------------ *)
(** ** Further properties of the code *)


Lemma string_length_append (a s : string) : String.length (a ++ s)%string = (String.length a + String.length s)%nat.
Proof. induction a as [|c a IH]; simpl; [reflexivity | rewrite IH; reflexivity]. Qed.

Lemma index0_prefix_nonempty (c : ascii) (p s : string) :
  prefix (String c p) s = true -> index 0 (String c p) s = Some 0%nat.
Proof. destruct s as [|b s]; simpl; [discriminate|]. intros H. rewrite H. reflexivity. Qed.

Lemma index0_not_prefix (c : ascii) (p s : string) :
  prefix (String c p) s = false -> index 0 (String c p) s <> Some 0%nat.
Proof.
  destruct s as [|b s]; [discriminate|]. intros H. cbn [index]. rewrite H.
  destruct (index 0 (String c p) s); discriminate.
Qed.

(** The link launched by [handleHyperLinkClick] always starts with
    ["http"]: a link that already starts with ["http"] is launched as it
    is, any other link (also one with ["http"] further in) gets the base
    URL put in front. *)
Theorem launch_link_http (link : string) :
  prefix "http" (launch_link link) = true /\
  (launch_link link = link <-> prefix "http" link = true) /\
  (prefix "http" link = false -> launch_link link = (baseurl ++ link)%string).
Proof.
  unfold launch_link, js_indexOf.
  destruct (prefix "http" link) eqn:Hp.
  - rewrite (index0_prefix_nonempty _ _ _ Hp). simpl. rewrite Hp. split; [reflexivity|]. split; [tauto|discriminate].
  - assert (Hb : (Z.eqb (match index 0 "http" link with Some n => Z.of_nat n | None => -1 end) (-1)
                  || Z.ltb 0 (match index 0 "http" link with Some n => Z.of_nat n | None => -1 end)) = true).
    { pose proof (index0_not_prefix _ _ _ Hp) as Hn.
      destruct (index 0 "http" link) as [[|n]|]; [congruence| |reflexivity].
      apply orb_true_intro. right. apply Z.ltb_lt. lia. }
    rewrite Hb. split; [reflexivity|]. split; [|reflexivity].
    split; [|discriminate]. intros H. apply (f_equal String.length) in H.
    rewrite string_length_append in H. simpl in H. lia.
Qed.

(** In [renderBox] only the types Regulatory and Commercial get both a
    CSS class and an icon: Clinical Trials and Launch get an icon but no
    class, and the class test's spelling "Clinical Trails" gets a class
    but no icon. *)
Theorem box_class_icon_types (ty : string) :
  (box_class ty <> None /\ box_icon ty <> None <-> ty = "Regulatory"%string \/ ty = "Commercial"%string) /\
  box_class "Clinical Trials" = None /\ box_icon "Clinical Trials" = Some ClinicalTrialsIcon /\
  box_class "Launch" = None /\ box_icon "Launch" = Some LaunchIcon /\
  box_class "Clinical Trails" = Some "rect clinical-trails"%string /\ box_icon "Clinical Trails" = None.
Proof.
  split; [|repeat split; reflexivity].
  unfold box_class, box_icon.
  destruct (String.eqb_spec ty "Regulatory") as [->|H1]; [split; [intros; left; reflexivity|intros; split; discriminate]|].
  destruct (String.eqb_spec ty "Commercial") as [->|H2]; [split; [intros; right; reflexivity|intros; split; discriminate]|].
  split; [|intros [H|H]; contradiction].
  destruct (String.eqb_spec ty "Clinical Trails") as [->|H3].
  - simpl. intros [_ H]. exfalso. apply H. reflexivity.
  - intros [H _]. exfalso. apply H. reflexivity.
Qed.

(** For a Clinical Trials or Launch event the tooltip applies unary [+]
    to the sanitized description, so a description that starts with a
    letter (other than the [I] of [Infinity]) shows as [NaN]. *)
Theorem tooltip_description_nan (sanitizeHtml : option string -> string)
  (unary_plus_text : string -> string) (d : TimelineData) (t : Z) (c : ascii) (rest : string) :
  (forall c' s, is_upper_or_lower_letter_not_I c' = true -> unary_plus_text (String c' s) = "NaN"%string) ->
  ev_Date d = Some (Valid t) ->
  sanitizeHtml (ev_Description d) = String c rest -> is_upper_or_lower_letter_not_I c = true ->
  (ev_Type d = "Clinical Trials"%string \/ ev_Type d = "Launch"%string) ->
  tooltip_html sanitizeHtml unary_plus_text d =
    JOk (tooltip_date_html (Valid t) ++ "<div>" ++ sanitizeHtml (Some (ev_Company d)) ++ "</div>" ++
         "<div>" ++ "NaN" ++ "</div>")%string.
Proof.
  intros Hplus Hd Hs Hc Hty. unfold tooltip_html. rewrite Hd. cbn [js_bind].
  rewrite Hs, (Hplus c rest Hc).
  destruct Hty as [-> | ->]; reflexivity.
Qed.

Lemma tooltip_description_nan_witness :
  tooltip_html (fun o => match o with Some s => s | None => ""%string end) (fun _ => "NaN"%string)
    {| ev_Company := "Acme"; ev_Type := "Launch"; ev_Description := Some "Phase 3"%string;
       ev_CompanyLink := None; ev_Date := Some (Valid 0); ev_HeaderImage := None;
       ev_FooterImage := None; ev_selectionId := 0 |} =
  JOk (tooltip_date_html (Valid 0) ++ "<div>" ++ "Acme" ++ "</div>" ++ "<div>" ++ "NaN" ++ "</div>")%string.
Proof.
  exact (tooltip_description_nan (fun o => match o with Some s => s | None => ""%string end)
           (fun _ => "NaN"%string)
           {| ev_Company := "Acme"; ev_Type := "Launch"; ev_Description := Some "Phase 3"%string;
              ev_CompanyLink := None; ev_Date := Some (Valid 0); ev_HeaderImage := None;
              ev_FooterImage := None; ev_selectionId := 0 |} 0 "P"%char "hase 3"%string
           (fun _ _ _ => eq_refl) eq_refl eq_refl eq_refl (or_intror eq_refl)).
Defined.

Lemma yScale_eq (g v : Z) : (yScale g v == inject_Z (210 * g + (50 - g) * (v + 105)) * (1 # 210))%Q.
Proof.
  unfold yScale, margin_top.
  replace (v - -105) with (v + 105) by lia. replace (105 - -105) with 210 by reflexivity.
  generalize (v + 105) as b. generalize (50 - g) as a. intros a b.
  cbv [Qeq Qdiv Qmult Qplus Qinv inject_Z Qnum Qden]. cbn -[Z.mul Z.add]. ring.
Qed.

(** Below the top margin the y scale is strictly decreasing. *)
Lemma yScale_lt (g v v' : Z) : margin_top < g -> v < v' -> (yScale g v' < yScale g v)%Q.
Proof.
  unfold margin_top. intros Hg Hv. rewrite !yScale_eq.
  assert (H : 210 * g + (50 - g) * (v' + 105) < 210 * g + (50 - g) * (v + 105)) by nia.
  revert H. generalize (210 * g + (50 - g) * (v' + 105)) as a. generalize (210 * g + (50 - g) * (v + 105)) as b.
  intros b a H. cbv [Qlt Qmult inject_Z Qnum Qden]. cbn -[Z.mul Z.add]. lia.
Qed.

(** The x axis line of [renderXandYAxis] is drawn at the pixel height
    [yScale(0)], the middle of the logical y domain [-105, 105]. *)
Theorem x_axis_at_logical_zero (gHeight : Z) :
  fst (x_axis_translate gHeight) = inject_Z 20 /\
  (snd (x_axis_translate gHeight) == yScale gHeight 0)%Q.
Proof.
  split; [reflexivity|]. rewrite yScale_eq. unfold x_axis_translate. simpl snd.
  generalize gHeight as g. intros g.
  cbv [Qeq Qdiv Qmult Qplus Qinv inject_Z Qnum Qden]. cbn -[Z.mul Z.add]. ring.
Qed.

(** The vertical connector of [renderTimeRangeLines] lies on the side of
    the x axis where its box is: below the axis for an even index, above
    it for an odd index, starting at the axis end and running towards the
    box (as long as the plot is taller than the top margin). *)
Theorem connectors_stay_on_box_side (gHeight i : Z) :
  margin_top < gHeight ->
  let '(y1, y2) := line_pixel_ys gHeight i in
  let axis := snd (x_axis_translate gHeight) in
  if i mod 2 =? 0 then (axis < y1 /\ y1 < y2)%Q else (y2 < y1 /\ y1 < axis)%Q.
Proof.
  intros Hg. unfold line_pixel_ys.
  assert (Hax : (snd (x_axis_translate gHeight) == yScale gHeight 0)%Q).
  { rewrite yScale_eq. unfold x_axis_translate. simpl snd.
    cbv [Qeq Qdiv Qmult Qplus Qinv inject_Z Qnum Qden]. cbn -[Z.mul Z.add]. ring. }
  cbv beta iota zeta. unfold line_y1, line_y2, ceil_half.
  destruct (i mod 2 =? 0).
  - rewrite Hax. destruct ((i / 2) mod 2 =? 0); split; apply yScale_lt; auto; lia.
  - rewrite Hax. destruct ((- (- i / 2)) mod 2 =? 0); split; apply yScale_lt; auto; lia.
Qed.

Lemma connectors_stay_on_box_side_witness :
  margin_top < 400 /\
  (let '(y1, y2) := line_pixel_ys 400 1 in
   let axis := snd (x_axis_translate 400) in
   if 1 mod 2 =? 0 then (axis < y1 /\ y1 < y2)%Q else (y2 < y1 /\ y1 < axis)%Q).
Proof.
  assert (H : margin_top < 400) by (unfold margin_top; lia).
  split; [exact H | exact (connectors_stay_on_box_side 400 1 H)].
Defined.

(** A connector of [renderTimeRangeLines] ends at the coloured circle of
    its box in [renderBox]: its x is the circle's centre (the box's x plus
    45) and its far end is at the box's y; when the x scale gives NaN the
    connector is drawn at x = 0. *)
Theorem connector_ends_at_marker (xScale : option jsdate -> pixel) (gHeight i : Z) (d : TimelineData) :
  let '(x1, _, x2, y2) := time_range_line xScale i d in
  match box_translate xScale gHeight i d with
  | (Px bx, by_) =>
      (x1 == bx + inject_Z marker_cx)%Q /\ (x2 == bx + inject_Z marker_cx)%Q /\
      (yScale gHeight y2 == by_ + inject_Z marker_cy)%Q
  | (PNaN, _) => x1 = 0%Q /\ x2 = 0%Q
  end.
Proof.
  unfold time_range_line, box_translate.
  destruct (xScale (ev_Date d)) as [|v]; cbv beta iota; [split; reflexivity|].
  unfold line_x, marker_cx, marker_cy.
  assert (H : (v + inject_Z 20 == v - inject_Z 25 + inject_Z 45)%Q)
    by (unfold inject_Z; ring).
  split; [exact H|]. split; [exact H|].
  replace (line_y2 i) with (box_y i) by reflexivity. unfold inject_Z. ring.
Qed.

(** [renderHeaderAndFooter] throws on an empty event list exactly when
    the layout is header or footer (so also after an update with no rows),
    and a banner image it shows is either empty or a valid data URL taken
    from the first event. *)
Theorem header_footer_banner (validDataUrl : string -> bool) (layout : string) (data : list TimelineData) :
  (renderHeaderAndFooter validDataUrl layout [] = JThrow TypeError <->
     js_toLowerCase layout = "header"%string \/ js_toLowerCase layout = "footer"%string) /\
  (forall date_parse cols currentYear PreviousYear FutureYear gWidth,
     (l <- update_layout date_parse cols [] currentYear PreviousYear FutureYear gWidth ;;
      renderHeaderAndFooter validDataUrl layout (events l)) = JThrow TypeError <->
     js_toLowerCase layout = "header"%string \/ js_toLowerCase layout = "footer"%string) /\
  (forall src, renderHeaderAndFooter validDataUrl layout data = JOk (HeaderBanner src) ->
     src = ""%string \/
     (validDataUrl src = true /\ exists t rest, data = t :: rest /\ ev_HeaderImage t = Some src)) /\
  (forall src, renderHeaderAndFooter validDataUrl layout data = JOk (FooterBanner src) ->
     src = ""%string \/
     (validDataUrl src = true /\ exists t rest, data = t :: rest /\ ev_FooterImage t = Some src)).
Proof.
  assert (Hempty : renderHeaderAndFooter validDataUrl layout [] = JThrow TypeError <->
     js_toLowerCase layout = "header"%string \/ js_toLowerCase layout = "footer"%string).
  { unfold renderHeaderAndFooter. cbn [hd_error].
    destruct (String.eqb_spec (js_toLowerCase layout) "header") as [H1|H1];
      [split; [intros; left; exact H1 | reflexivity]|].
    destruct (String.eqb_spec (js_toLowerCase layout) "footer") as [H2|H2];
      [split; [intros; right; exact H2 | reflexivity]|].
    split; [discriminate | intros [H|H]; contradiction]. }
  split; [exact Hempty|]. split; [intros; exact Hempty|].
  assert (Hsrc : forall v src, image_src validDataUrl v = src ->
            src = ""%string \/ (validDataUrl src = true /\ v = Some src)).
  { intros [s|] src <-; simpl; [|left; reflexivity].
    destruct (validDataUrl s) eqn:E; [right; split; [exact E|reflexivity] | left; reflexivity]. }
  unfold renderHeaderAndFooter.
  destruct data as [|t rest]; cbn [hd_error].
  - split; intros src;
      destruct (String.eqb (js_toLowerCase layout) "header"); [discriminate| |discriminate|];
      (destruct (String.eqb (js_toLowerCase layout) "footer"); discriminate).
  - split; intros src;
      destruct (String.eqb (js_toLowerCase layout) "header");
      try (destruct (String.eqb (js_toLowerCase layout) "footer"));
      intros H; try discriminate; injection H as H;
      destruct (Hsrc _ _ H) as [->|[Hv Hs]]; (left; reflexivity) || (right; split; [exact Hv|]; exists t, rest; split; [reflexivity|exact Hs]).
Qed.

Lemma convert_rows_throw_iff date_parse ix i rows :
  convert_rows date_parse ix i rows = JThrow TypeError <->
  existsb (fun row => nullish (row_at row (companyIndex ix))) rows = true.
Proof.
  revert i. induction rows as [|row rows IH]; intros i; simpl; [split; discriminate|].
  unfold convert_row. destruct (row_at row (companyIndex ix)); simpl;
    try (split; reflexivity); rewrite <- (IH (S i));
    destruct (convert_rows date_parse ix (S i) rows) as [evs|[]]; simpl; split; (reflexivity || discriminate).
Qed.

Lemma convert_rows_ids date_parse ix i rows evs :
  convert_rows date_parse ix i rows = JOk evs -> map ev_selectionId evs = seq i (List.length rows).
Proof.
  revert i evs. induction rows as [|row rows IH]; intros i evs H.
  - simpl in H. injection H as <-. reflexivity.
  - simpl in H. unfold convert_row in H.
    destruct (js_toString (row_at row (companyIndex ix))); [|discriminate]. simpl in H.
    destruct (convert_rows date_parse ix (S i) rows) eqn:E; [|discriminate].
    simpl in H. injection H as <-. simpl. f_equal. apply IH. exact E.
Qed.

(** [CONVERTER] throws exactly when some row's Company cell is [null] or
    [undefined], and returns events exactly when no row's is. *)
Theorem converter_throws_iff_null_company (date_parse : string -> option Z) (cols : list column)
  (rows : list (list jsval)) :
  (CONVERTER date_parse cols rows = JThrow TypeError <->
     existsb (fun row => nullish (row_at row (companyIndex (bind_roles cols)))) rows = true) /\
  ((exists evs, CONVERTER date_parse cols rows = JOk evs) <->
     forallb (fun row => negb (nullish (row_at row (companyIndex (bind_roles cols))))) rows = true).
Proof.
  unfold CONVERTER. pose proof (convert_rows_throw_iff date_parse (bind_roles cols) 0 rows) as H.
  split; [exact H|].
  rewrite forallb_forall.
  assert (Hex : existsb (fun row => nullish (row_at row (companyIndex (bind_roles cols)))) rows = false <->
                (forall x, In x rows -> negb (nullish (row_at x (companyIndex (bind_roles cols)))) = true)).
  { rewrite <- Bool.not_true_iff_false, existsb_exists. split.
    - intros Hn x Hx. destruct (nullish _) eqn:E; [|reflexivity]. exfalso. apply Hn. exists x. split; assumption.
    - intros Hall [x [Hx Hn]]. specialize (Hall x Hx). rewrite Hn in Hall. discriminate. }
  rewrite <- Hex. destruct (convert_rows date_parse (bind_roles cols) 0 rows) as [evs|[]].
  - split; [intros _|intros _; exists evs; reflexivity].
    destruct (existsb _ rows) eqn:E; [|reflexivity]. discriminate (proj2 H eq_refl).
  - split; [intros [evs Hevs]; discriminate|]. intros E. rewrite (proj1 H eq_refl) in E. discriminate.
Qed.

Lemma first_role_not_company c : hasRole c CompanyRole = false -> role_opt_eqb (first_role c) CompanyRole = false.
Proof.
  intros H. unfold first_role, role_chain. cbn [find]. rewrite H.
  destruct (hasRole c TypeRole); [reflexivity|].
  destruct (hasRole c DescriptionRole); [reflexivity|].
  destruct (hasRole c CompanyLinkRole); [reflexivity|].
  destruct (hasRole c DateRole); [reflexivity|].
  destruct (hasRole c HeaderImageRole); [reflexivity|].
  destruct (hasRole c FooterImageRole); reflexivity.
Qed.

Lemma last_column_for_none r ti cols acc :
  (forall c, In c cols -> role_opt_eqb (first_role c) r = false) -> last_column_for r ti cols acc = acc.
Proof.
  revert ti acc. induction cols as [|c cols IH]; intros ti acc H; [reflexivity|].
  simpl. rewrite H by (left; reflexivity). apply IH. intros; apply H; right; assumption.
Qed.

(** Without a Company column [CONVERTER] throws on any non-empty table:
    the Company index stays -1 and [row[-1]] is [undefined]. *)
Theorem converter_without_company_column (date_parse : string -> option Z) (cols : list column)
  (rows : list (list jsval)) :
  (forall c, In c cols -> hasRole c CompanyRole = false) -> rows <> [] ->
  CONVERTER date_parse cols rows = JThrow TypeError.
Proof.
  intros Hc Hr. apply convert_rows_throw_iff.
  assert (Hi : companyIndex (bind_roles cols) = -1).
  { change (companyIndex (bind_roles cols)) with (index_of_role (bind_columns_from no_indices 0 cols) CompanyRole).
    rewrite bind_columns_from_index. apply last_column_for_none.
    intros c Hin. apply first_role_not_company, Hc, Hin. }
  rewrite Hi. destruct rows as [|row rows]; [contradiction|]. reflexivity.
Qed.

Lemma converter_without_company_column_witness :
  (forall c, In c [{| roles := [DateRole] |}] -> hasRole c CompanyRole = false) /\
  [[JStr "2024-01-01"]] <> [] /\
  CONVERTER parse_iso_date [{| roles := [DateRole] |}] [[JStr "2024-01-01"]] = JThrow TypeError.
Proof.
  assert (H : forall c, In c [{| roles := [DateRole] |}] -> hasRole c CompanyRole = false)
    by (intros c [<-|[]]; reflexivity).
  split; [exact H|]. split; [discriminate|].
  apply (converter_without_company_column parse_iso_date _ _ H). discriminate.
Defined.

(** The events of [CONVERTER] carry the selection ids 0, 1, 2, ... of
    their rows, in row order. *)
Theorem converter_selection_ids (date_parse : string -> option Z) (cols : list column)
  (rows : list (list jsval)) (evs : list TimelineData) :
  CONVERTER date_parse cols rows = JOk evs ->
  map ev_selectionId evs = seq 0 (List.length rows).
Proof. apply convert_rows_ids. Qed.

Lemma converter_selection_ids_witness :
  CONVERTER parse_iso_date company_date_columns [[JStr "A"; JStr "2024-01-01"]; [JStr "B"; JNull]] =
    JOk [event_on "A" "2024-01-01"; {| ev_Company := "B"; ev_Type := ""; ev_Description := None;
          ev_CompanyLink := None; ev_Date := None; ev_HeaderImage := None; ev_FooterImage := None;
          ev_selectionId := 1 |}] /\
  map ev_selectionId [event_on "A" "2024-01-01"; {| ev_Company := "B"; ev_Type := ""; ev_Description := None;
          ev_CompanyLink := None; ev_Date := None; ev_HeaderImage := None; ev_FooterImage := None;
          ev_selectionId := 1 |}] = seq 0 2.
Proof.
  assert (H : CONVERTER parse_iso_date company_date_columns [[JStr "A"; JStr "2024-01-01"]; [JStr "B"; JNull]] =
    JOk [event_on "A" "2024-01-01"; {| ev_Company := "B"; ev_Type := ""; ev_Description := None;
          ev_CompanyLink := None; ev_Date := None; ev_HeaderImage := None; ev_FooterImage := None;
          ev_selectionId := 1 |}]) by (vm_compute; reflexivity).
  split; [exact H|]. exact (converter_selection_ids _ _ _ _ H).
Defined.

Lemma keep_years_ok test data l :
  keep_years test data = JOk l -> l = filter (fun d => test (event_year d)) data.
Proof.
  revert l. induction data as [|d data IH]; intros l H.
  - injection H as <-. reflexivity.
  - change (d :: data) with ([d] ++ data) in H. rewrite keep_years_app in H.
    unfold keep_years at 1 in H. cbn [js_map] in H. unfold date_year, event_year in *.
    destruct (ev_Date d) as [dt|] eqn:Ed; [|discriminate]. cbn [js_bind] in H.
    destruct (keep_years test data) as [l2|] eqn:E2; [|destruct (test (getFullYear dt)); discriminate].
    specialize (IH l2 eq_refl). subst l2. simpl. rewrite Ed.
    destruct (test (getFullYear dt)); simpl in H; injection H as <-; reflexivity.
Qed.

Lemma filter_true {A} (l : list A) : filter (fun _ => true) l = l.
Proof. induction l as [|x l IH]; simpl; [reflexivity | rewrite IH; reflexivity]. Qed.

(** The working set of [select_window] is the event list with some events
    left out, in their order. *)
Lemma select_window_filter currentYear PreviousYear FutureYear data minDate maxDate work :
  select_window currentYear PreviousYear FutureYear data = JOk (minDate, maxDate, work) ->
  exists keep, work = filter keep data.
Proof.
  unfold select_window. intros H.
  destruct (0 <? Z.of_nat (List.length data)).
  - destruct (keep_years _ data) as [l1|] eqn:E1; [|discriminate]. cbn [js_bind] in H.
    destruct (keep_years _ l1) as [l2|] eqn:E2; [|discriminate]. cbn [js_bind] in H.
    apply keep_years_ok in E1, E2. subst l1 l2. rewrite filter_filter_andb in H.
    destruct (filter _ data) as [|x xs] eqn:Ef.
    + destruct (data_window data). injection H as _ _ <-. exists (fun _ => true). symmetry. apply filter_true.
    + injection H as _ _ <-. rewrite <- Ef. eexists. reflexivity.
  - cbn [js_bind] in H. destruct (data_window data). injection H as _ _ <-.
    exists (fun _ => true). symmetry. apply filter_true.
Qed.

(** The events [update] lays out come from the first 100 rows of
    [CONVERTER], in order: at most 100 events, whatever the table size. *)
Theorem update_events_from_first_100 (date_parse : string -> option Z) (cols : list column)
  (rows : list (list jsval)) (currentYear PreviousYear FutureYear gWidth : Z) (l : layout) :
  update_layout date_parse cols rows currentYear PreviousYear FutureYear gWidth = JOk l ->
  exists evs keep, CONVERTER date_parse cols rows = JOk evs /\
                   events l = filter keep (firstn 100 evs) /\ (List.length (events l) <= 100)%nat.
Proof.
  unfold update_layout, extract. intros H.
  destruct (CONVERTER date_parse cols rows) as [evs|] eqn:Ec; [|discriminate]. cbn [js_bind] in H.
  destruct (select_window _ _ _ _) as [[[minDate maxDate] work]|] eqn:Es; [|discriminate].
  cbn [js_bind] in H. injection H as <-. simpl.
  destruct (select_window_filter _ _ _ _ _ _ _ Es) as [keep ->].
  exists evs, keep. split; [reflexivity|]. split; [reflexivity|].
  etransitivity; [apply filter_length_le|]. rewrite length_firstn. lia.
Qed.

Lemma update_events_from_first_100_witness :
  exists l, update_layout parse_iso_date company_date_columns
              [[JStr "A"; JStr "2022-03-01"]; [JStr "B"; JStr "2023-07-15"]] 2024 1 8 500 = JOk l /\
  exists evs keep, CONVERTER parse_iso_date company_date_columns
                     [[JStr "A"; JStr "2022-03-01"]; [JStr "B"; JStr "2023-07-15"]] = JOk evs /\
                   events l = filter keep (firstn 100 evs) /\ (List.length (events l) <= 100)%nat.
Proof.
  eexists. split; [vm_compute; reflexivity|].
  apply (update_events_from_first_100 parse_iso_date company_date_columns
           [[JStr "A"; JStr "2022-03-01"]; [JStr "B"; JStr "2023-07-15"]] 2024 1 8 500).
  vm_compute. reflexivity.
Defined.

Lemma jok_triple_inj {A B C} (a a' : A) (b b' : B) (c c' : C) :
  JOk (a, b, c) = JOk (a', b', c') -> a = a' /\ b = b' /\ c = c'.
Proof. intros H. injection H. auto. Qed.

(** [Math.min]/[Math.max] over event years that are all numbers. *)
Lemma fold_min_years (data : list TimelineData) (a b : Z) :
  (forall d, In d data -> exists y, event_year d = Some y /\ b <= y) -> b <= a ->
  exists m, fold_left js_min2 (map year_num data) (Fin a) = Fin m /\ b <= m /\ m <= a /\
            forall d y, In d data -> event_year d = Some y -> m <= y.
Proof.
  revert a. induction data as [|d data IH]; intros a Hy Ha.
  - exists a. repeat split; [lia | lia | intros _ _ []].
  - destruct (Hy d (or_introl eq_refl)) as [y [Ey Hb]].
    simpl. unfold year_num at 2. rewrite Ey. simpl.
    destruct (IH (Z.min a y)) as [m [Hm [H1 [H2 H3]]]];
      [intros; apply Hy; right; assumption | lia |].
    exists m. split; [exact Hm|]. split; [exact H1|]. split; [lia|].
    intros d' y' [<-|Hin] E'; [rewrite Ey in E'; injection E' as <-; lia|]. apply H3 with d'; assumption.
Qed.

Lemma fold_max_years (data : list TimelineData) (a B : Z) :
  (forall d, In d data -> exists y, event_year d = Some y /\ y <= B) -> a <= B ->
  exists m, fold_left js_max2 (map year_num data) (Fin a) = Fin m /\ a <= m /\ m <= B /\
            forall d y, In d data -> event_year d = Some y -> y <= m.
Proof.
  revert a. induction data as [|d data IH]; intros a Hy Ha.
  - exists a. repeat split; [lia | lia | intros _ _ []].
  - destruct (Hy d (or_introl eq_refl)) as [y [Ey HB]].
    simpl. unfold year_num at 2. rewrite Ey. simpl.
    destruct (IH (Z.max a y)) as [m [Hm [H1 [H2 H3]]]];
      [intros; apply Hy; right; assumption | lia |].
    exists m. split; [exact Hm|]. split; [lia|]. split; [exact H2|].
    intros d' y' [<-|Hin] E'; [rewrite Ey in E'; injection E' as <-; lia|]. apply H3 with d'; assumption.
Qed.

Lemma ctor_year_id y : 100 <= y -> ctor_year y = y.
Proof. intros H. unfold ctor_year. destruct (Z.leb_spec 0 y), (Z.leb_spec y 99); simpl; lia. Qed.

(** The years of the working set lie between the years of the window. *)
Lemma working_set_years currentYear PreviousYear FutureYear data minDate maxDate work :
  select_window currentYear PreviousYear FutureYear data = JOk (minDate, maxDate, work) ->
  (forall d, In d data -> exists t, ev_Date d = Some (Valid t)) ->
  (forall d y, In d data -> event_year d = Some y -> 100 <= y <= 275759) ->
  forall d, In d work -> exists y lo hi, event_year d = Some y /\ getFullYear minDate = Some lo /\
                                    getFullYear maxDate = Some hi /\ lo <= y <= hi.
Proof.
  intros Hsel Hv H100.
  destruct data as [|d0 rest] eqn:Hd.
  - vm_compute in Hsel. injection Hsel as _ _ <-. intros _ [].
  - rewrite <- Hd in *.
    assert (Hnn : forall d, In d data -> ev_Date d <> None)
      by (intros d Hin; destruct (Hv d Hin) as [t ->]; discriminate).
    assert (Hy : forall d, In d data -> exists y, event_year d = Some y /\ 100 <= y <= 275759).
    { intros d Hin. destruct (Hv d Hin) as [t Et]. unfold event_year. rewrite Et.
      eexists. split; [reflexivity|]. apply (H100 d); [exact Hin|]. unfold event_year. rewrite Et. reflexivity. }
    assert (Hrg : forall d, In d data -> date_in_range (ev_Date d)).
    { intros d Hin. destruct (Hv d Hin) as [t Et]. destruct (Hy d Hin) as [y [Ey Hb]].
      unfold event_year in Ey. rewrite Et in Ey. injection Ey as Ey.
      unfold date_in_range. rewrite Et. apply time_in_range_of_year.
      unfold year_at. rewrite Ey. lia. }
    rewrite (select_window_cases _ _ _ data) in Hsel; [|rewrite Hd; discriminate|exact Hnn].
    cbv zeta in Hsel.
    set (minD := new_date (Some (currentYear - PreviousYear)) (Some 0) 1) in Hsel.
    set (maxD := new_date (Some (currentYear + FutureYear)) (Some 0) 1) in Hsel.
    destruct (existsb _ data) eqn:Ex.
    + injection Hsel as <- <- <-. intros d Hin. apply filter_In in Hin as [Hin Hw].
      cbv beta in Hw.
      destruct (event_year d) as [y|] eqn:Ey; [|discriminate].
      destruct (getFullYear minD) as [lo|]; [|discriminate].
      destruct (getFullYear maxD) as [hi|];
        [|simpl in Hw; rewrite andb_false_r in Hw; discriminate].
      apply andb_true_iff in Hw as [H1 H2]. apply Z.leb_le in H1. apply Z.leb_le in H2.
      exists y, lo, hi. repeat split; lia.
    + rewrite data_window_years in Hsel by assumption. injection Hsel as <- <- <-.
      rewrite Hd in Hy. destruct (Hy d0 (or_introl eq_refl)) as [y0 [Ey0 Hy0]].
      rewrite <- Hd in Hy.
      unfold spec_min_year, spec_max_year, math_min, math_max.
      replace (map year_num data) with (Fin y0 :: map year_num rest)
        by (rewrite Hd; cbn [map]; f_equal; unfold year_num; rewrite Ey0; reflexivity).
      cbn [fold_left]. change (js_min2 PosInf (Fin y0)) with (Fin y0).
      change (js_max2 NegInf (Fin y0)) with (Fin y0).
      assert (Hr : forall d, In d rest -> exists y, event_year d = Some y /\ 100 <= y <= 275759)
        by (intros d Hin; apply Hy; rewrite Hd; right; exact Hin).
      destruct (fold_min_years rest y0 100) as [m [Hm [Hm1 [Hm2 Hm3]]]];
        [intros d Hin; destruct (Hr d Hin) as [y [Ey Hb]]; exists y; split; [exact Ey | lia] | lia |].
      destruct (fold_max_years rest y0 275759) as [M [HM [HM1 [HM2 HM3]]]];
        [intros d Hin; destruct (Hr d Hin) as [y [Ey Hb]]; exists y; split; [exact Ey | lia] | lia |].
      rewrite Hm, HM. cbn [num_year option_map].
      assert (E1 : getFullYear (new_date (Some m) (Some 0) 1) = Some m)
        by (rewrite getFullYear_jan1; rewrite ctor_year_id by lia;
            [reflexivity | apply jan1_in_range_between; lia]).
      assert (E2 : getFullYear (new_date (Some (M + 1)) (Some 0) 1) = Some (M + 1))
        by (rewrite getFullYear_jan1; rewrite ctor_year_id by lia;
            [reflexivity | apply jan1_in_range_between; lia]).
      rewrite E1, E2.
      intros d Hin. destruct (Hy d Hin) as [y [Ey _]]. exists y, m, (M + 1).
      split; [exact Ey|]. split; [reflexivity|]. split; [reflexivity|].
      rewrite Hd in Hin. destruct Hin as [<-|Hin].
      * rewrite Ey0 in Ey. injection Ey as <-. lia.
      * split; [apply (Hm3 d y Hin Ey)|]. pose proof (HM3 d y Hin Ey). lia.
Qed.

(** When every event has a valid date with a year from 100 to 275759,
    every event of the working set has a year within the years of
    [minDate] and [maxDate], so the colour lookup of
    [renderTimeRangeLines] never misses for it. *)
Theorem working_set_colors_found (currentYear PreviousYear FutureYear : Z)
  (data : list TimelineData) (minDate maxDate : jsdate) (work : list TimelineData) :
  select_window currentYear PreviousYear FutureYear data = JOk (minDate, maxDate, work) ->
  (forall d, In d data -> exists t, ev_Date d = Some (Valid t)) ->
  (forall d y, In d data -> event_year d = Some y -> 100 <= y <= 275759) ->
  (forall d, In d work -> exists y lo hi, event_year d = Some y /\ getFullYear minDate = Some lo /\
                                     getFullYear maxDate = Some hi /\ lo <= y <= hi) /\
  exists colors, line_strokes (getColorDataByYear minDate maxDate) work = JOk colors.
Proof.
  intros Hsel Hv H100.
  pose proof (working_set_years _ _ _ _ _ _ _ Hsel Hv H100) as Hyears.
  split; [exact Hyears|].
  destruct (select_window_filter _ _ _ _ _ _ _ Hsel) as [keep Hw].
  assert (Hin : forall d, In d work -> In d data) by (intros d H; rewrite Hw in H; apply filter_In in H; apply H).
  unfold line_strokes. clear Hw Hsel. revert Hyears Hin.
  induction work as [|d work IH]; intros Hyears Hin; [eexists; reflexivity|].
  destruct IH as [cs Hcs];
    [intros d' H; apply Hyears; right; exact H | intros d' H; apply Hin; right; exact H |].
  destruct (Hyears d (or_introl eq_refl)) as [y [lo [hi [Ey [Hlo [Hhi Hr]]]]]].
  destruct (Hv d (Hin d (or_introl eq_refl))) as [t Et].
  unfold event_year in Ey. rewrite Et in Ey.
  assert (Hc : colorOf (getColorDataByYear minDate maxDate) y = Some (nth_error colors (Z.to_nat (y - lo)))).
  { unfold getColorDataByYear. rewrite Hlo, Hhi, colorOf_color_rows.
    replace ((lo <=? y) && (y <? lo + Z.of_nat (Z.to_nat (hi + 1 - lo + 1)))) with true
      by (symmetry; apply andb_true_iff; split; [apply Z.leb_le | apply Z.ltb_lt]; lia).
    replace (0 + Z.to_nat (y - lo))%nat with (Z.to_nat (y - lo)) by lia. reflexivity. }
  cbn [js_map]. unfold event_color at 1, date_year. rewrite Et. cbn [js_bind].
  rewrite Ey, Hc. cbn [js_bind]. rewrite Hcs. eexists. reflexivity.
Qed.

Lemma working_set_colors_found_witness :
  let data := [event_on "A" "2010-05-01"; event_on "B" "2012-03-01"] in
  (forall d, In d data -> exists t, ev_Date d = Some (Valid t)) /\
  (forall d y, In d data -> event_year d = Some y -> 100 <= y <= 275759) /\
  select_window 2024 1 8 data = JOk (jan1_date 2010, jan1_date 2013, data) /\
  exists colors, line_strokes (getColorDataByYear (jan1_date 2010) (jan1_date 2013)) data = JOk colors.
Proof.
  cbv zeta.
  assert (Hv : forall d, In d [event_on "A" "2010-05-01"; event_on "B" "2012-03-01"] ->
                 exists t, ev_Date d = Some (Valid t))
    by (intros d [<-|[<-|[]]]; eexists; reflexivity).
  assert (H100 : forall d y, In d [event_on "A" "2010-05-01"; event_on "B" "2012-03-01"] ->
                   event_year d = Some y -> 100 <= y <= 275759)
    by (intros d y [<-|[<-|[]]] H; vm_compute in H; injection H as <-; lia).
  assert (Hs : select_window 2024 1 8 [event_on "A" "2010-05-01"; event_on "B" "2012-03-01"] =
               JOk (jan1_date 2010, jan1_date 2013, [event_on "A" "2010-05-01"; event_on "B" "2012-03-01"]))
    by (vm_compute; reflexivity).
  split; [exact Hv|]. split; [exact H100|]. split; [exact Hs|].
  exact (proj2 (working_set_colors_found _ _ _ _ _ _ _ Hs Hv H100)).
Defined.

(** The time scale of [renderXandYAxis] is not clamped: a date after the
    domain is placed right of the range, one before it left of it, and a
    date inside the domain inside the range. *)
Theorem scaleTime_unclamped (d0 d1 r0 r1 t : Z) :
  d0 < d1 -> r0 < r1 ->
  exists x, scaleTime (Valid d0, Valid d1) (r0, r1) (Some (Valid t)) = Px x /\
    (d1 < t -> (inject_Z r1 < x)%Q) /\ (t < d0 -> (x < inject_Z r0)%Q) /\
    (d0 <= t <= d1 -> (inject_Z r0 <= x)%Q /\ (x <= inject_Z r1)%Q).
Proof.
  intros Hd Hr. unfold scaleTime. cbn [fst snd number_of_date].
  replace (d1 =? d0) with false by (symmetry; apply Z.eqb_neq; lia).
  eexists. split; [reflexivity|].
  destruct (d1 - d0) as [|p|p] eqn:Ep; [lia| |lia].
  assert (Ht : forall x y, (inject_Z x < inject_Z r0 + inject_Z (r1 - r0) * (inject_Z y / inject_Z (Z.pos p)))%Q <->
                       x * Z.pos p < r0 * Z.pos p + (r1 - r0) * y).
  { intros x y. generalize (r1 - r0) as a. intros a.
    cbv [Qlt Qdiv Qmult Qplus Qinv inject_Z Qnum Qden]. cbn -[Z.mul Z.add].
    split; nia. }
  assert (Ht' : forall x y, (inject_Z r0 + inject_Z (r1 - r0) * (inject_Z y / inject_Z (Z.pos p)) < inject_Z x)%Q <->
                       r0 * Z.pos p + (r1 - r0) * y < x * Z.pos p).
  { intros x y. generalize (r1 - r0) as a. intros a.
    cbv [Qlt Qdiv Qmult Qplus Qinv inject_Z Qnum Qden]. cbn -[Z.mul Z.add].
    split; nia. }
  split; [|split].
  - intros H. apply Ht. nia.
  - intros H. apply Ht'. nia.
  - intros H. split; apply Qnot_lt_le; [rewrite Ht' | rewrite Ht]; nia.
Qed.

Lemma scaleTime_unclamped_witness :
  0 < 100 /\ 40 < 500 /\
  exists x, scaleTime (Valid 0, Valid 100) (40, 500) (Some (Valid 150)) = Px x /\
    (100 < 150 -> (inject_Z 500 < x)%Q) /\ (150 < 0 -> (x < inject_Z 40)%Q) /\
    (0 <= 150 <= 100 -> (inject_Z 40 <= x)%Q /\ (x <= inject_Z 500)%Q).
Proof. split; [lia|]. split; [lia|]. apply scaleTime_unclamped; lia. Defined.

Lemma month_of_days_spec d :
  0 <= month_of_days d <= 11 /\
  days_before_month (year_of_days d) (month_of_days d) <= d - days_jan1 (year_of_days d) /\
  (month_of_days d <= 10 ->
   d - days_jan1 (year_of_days d) < days_before_month (year_of_days d) (month_of_days d + 1)).
Proof.
  pose proof (year_of_days_spec d) as Hy.
  unfold month_of_days. cbv zeta.
  remember (year_of_days d) as y eqn:Ey. remember (d - days_jan1 y) as doy eqn:Edoy.
  assert (H0 : 0 <= doy) by lia. clear Edoy Ey Hy.
  unfold days_before_month. destruct (is_leap y); cbn -[Z.leb Z.ltb].
  all: repeat match goal with
              | |- context [if (?c <=? ?x) then _ else _] => destruct (Z.leb_spec c x)
              end; simpl in *; lia.
Qed.

Lemma days_before_month_lt y k : 0 <= k <= 10 -> days_before_month y k < days_before_month y (k + 1).
Proof.
  intros Hk. unfold days_before_month.
  assert (k = 0 \/ k = 1 \/ k = 2 \/ k = 3 \/ k = 4 \/ k = 5 \/ k = 6 \/ k = 7 \/ k = 8 \/ k = 9 \/ k = 10)
    as Hc by lia.
  destruct (is_leap y); repeat destruct Hc as [Hc | Hc]; subst k; simpl; lia.
Qed.

Lemma days_before_month_11 y : days_before_month y 11 <= 335.
Proof. unfold days_before_month. destruct (is_leap y); simpl; lia. Qed.

Lemma days_before_month_range y m : 0 <= m <= 11 -> 0 <= days_before_month y m <= 335.
Proof.
  intros Hm. unfold days_before_month.
  assert (m = 0 \/ m = 1 \/ m = 2 \/ m = 3 \/ m = 4 \/ m = 5 \/ m = 6 \/ m = 7 \/ m = 8 \/ m = 9 \/
          m = 10 \/ m = 11) as Hc by lia.
  destruct (is_leap y); repeat destruct Hc as [Hc | Hc]; subst m; simpl; lia.
Qed.

Lemma ctor_year_other y : ~ (0 <= y <= 99) -> ctor_year y = y.
Proof. intros H. unfold ctor_year. destruct (Z.leb_spec 0 y), (Z.leb_spec y 99); simpl; lia. Qed.

(** The first day of month [m] of year [y] reads back as year [y],
    month [m], day 1. *)
Lemma first_of_month_fields y m : 0 <= m <= 11 ->
  getFullYear (Valid ((days_jan1 y + days_before_month y m) * ms_per_day)) = Some y /\
  getMonth (Valid ((days_jan1 y + days_before_month y m) * ms_per_day)) = Some m /\
  getDate (Valid ((days_jan1 y + days_before_month y m) * ms_per_day)) = Some 1.
Proof.
  intros Hm. unfold getFullYear, getMonth, getDate.
  rewrite Z.div_mul by (unfold ms_per_day; lia).
  assert (Hy : year_of_days (days_jan1 y + days_before_month y m) = y).
  { apply year_of_days_unique. pose proof (days_jan1_step y).
    pose proof (days_before_month_range y m Hm). lia. }
  assert (Hmo : month_of_days (days_jan1 y + days_before_month y m) = m).
  { unfold month_of_days. rewrite Hy.
    replace (days_jan1 y + days_before_month y m - days_jan1 y) with (days_before_month y m) by ring.
    unfold days_before_month.
    assert (m = 0 \/ m = 1 \/ m = 2 \/ m = 3 \/ m = 4 \/ m = 5 \/ m = 6 \/ m = 7 \/ m = 8 \/ m = 9 \/
            m = 10 \/ m = 11) as Hc by lia.
    destruct (is_leap y); repeat destruct Hc as [Hc | Hc]; subst m; reflexivity. }
  cbv zeta. rewrite Hmo, Hy. split; [reflexivity|]. split; [reflexivity|]. f_equal. ring.
Qed.

(** [new Date(y, m, 1)] outside the two-digit years: the first of month
    [m mod 12] of year [y + m / 12]. *)
Lemma new_date_first y m : ~ (0 <= y <= 99) ->
  new_date (Some y) (Some m) 1 =
  time_clip ((days_jan1 (y + m / 12) + days_before_month (y + m / 12) (m mod 12)) * ms_per_day).
Proof.
  intros Hy. unfold new_date. cbv zeta. rewrite (ctor_year_other y Hy).
  change (1 - 1) with 0. rewrite Z.add_0_r. reflexivity.
Qed.

(** [new Date(y, m - 1, 1)] for the year and month of day [da]: the first
    of the previous month, a representable Date before that day. *)
Lemma month_before_start da :
  ~ (0 <= year_of_days da <= 99) -> -271820 <= year_of_days da <= 275759 ->
  exists d0, new_date (Some (year_of_days da)) (Some (month_of_days da - 1)) 1 = Valid (d0 * ms_per_day) /\
    d0 < da /\
    getFullYear (Valid (d0 * ms_per_day)) =
      Some (if month_of_days da =? 0 then year_of_days da - 1 else year_of_days da) /\
    getMonth (Valid (d0 * ms_per_day)) =
      Some (if month_of_days da =? 0 then 11 else month_of_days da - 1) /\
    getDate (Valid (d0 * ms_per_day)) = Some 1.
Proof.
  intros Hy Hr. pose proof (month_of_days_spec da) as [Hm [Hlo _]].
  rewrite new_date_first by exact Hy.
  remember (year_of_days da) as y eqn:Ey. remember (month_of_days da) as m eqn:Em.
  pose proof (days_jan1_le (-271820) y ltac:(lia)) as L1.
  pose proof (days_jan1_le (y + 1) 275760 ltac:(lia)) as L2.
  change (days_jan1 (-271820)) with (-99999744) in L1.
  change (days_jan1 275760) with 99999744 in L2.
  pose proof (days_jan1_step y) as Hs.
  destruct (Z.eq_dec m 0) as [E|E].
  - rewrite E. change ((0 - 1) / 12) with (-1). change ((0 - 1) mod 12) with 11.
    replace (y + -1) with (y - 1) by lia. cbn [Z.eqb].
    pose proof (days_jan1_step (y - 1)) as Hs'. replace (y - 1 + 1) with y in Hs' by lia.
    pose proof (days_before_month_range (y - 1) 11 ltac:(lia)) as Hb.
    assert (H334 : 334 <= days_before_month (y - 1) 11)
      by (unfold days_before_month; destruct (is_leap (y - 1)); simpl; lia).
    rewrite time_clip_ok by (unfold max_time_value, ms_per_day; lia).
    eexists. split; [reflexivity|]. rewrite E, days_before_month_0 in Hlo.
    split; [lia|]. apply first_of_month_fields. lia.
  - rewrite Z.div_small, Z.mod_small by lia. rewrite Z.add_0_r.
    replace (m =? 0) with false by (symmetry; apply Z.eqb_neq; exact E).
    pose proof (days_before_month_lt y (m - 1) ltac:(lia)) as Hl.
    replace (m - 1 + 1) with m in Hl by lia.
    pose proof (days_before_month_range y (m - 1) ltac:(lia)) as Hb.
    rewrite time_clip_ok by (unfold max_time_value, ms_per_day; lia).
    eexists. split; [reflexivity|]. split; [lia|]. apply first_of_month_fields. lia.
Qed.

(** [new Date(y, m + 1, 1)] for the year and month of day [db]: the first
    of the next month, a representable Date after that day. *)
Lemma month_after_end db :
  ~ (0 <= year_of_days db <= 99) -> -271820 <= year_of_days db <= 275759 ->
  exists d1, new_date (Some (year_of_days db)) (Some (month_of_days db + 1)) 1 = Valid (d1 * ms_per_day) /\
    db < d1 /\
    getFullYear (Valid (d1 * ms_per_day)) =
      Some (if month_of_days db =? 11 then year_of_days db + 1 else year_of_days db) /\
    getMonth (Valid (d1 * ms_per_day)) =
      Some (if month_of_days db =? 11 then 0 else month_of_days db + 1) /\
    getDate (Valid (d1 * ms_per_day)) = Some 1.
Proof.
  intros Hy Hr. pose proof (month_of_days_spec db) as [Hm [_ Hhi]].
  pose proof (year_of_days_spec db) as Hys.
  rewrite new_date_first by exact Hy.
  remember (year_of_days db) as y eqn:Ey. remember (month_of_days db) as m eqn:Em.
  pose proof (days_jan1_le (-271820) y ltac:(lia)) as L1.
  pose proof (days_jan1_le (y + 1) 275760 ltac:(lia)) as L2.
  change (days_jan1 (-271820)) with (-99999744) in L1.
  change (days_jan1 275760) with 99999744 in L2.
  pose proof (days_jan1_step y) as Hs.
  destruct (Z.eq_dec m 11) as [E|E].
  - rewrite E. change ((11 + 1) / 12) with 1. change ((11 + 1) mod 12) with 0. cbn [Z.eqb].
    rewrite time_clip_ok by (rewrite days_before_month_0; unfold max_time_value, ms_per_day; lia).
    eexists. split; [reflexivity|]. split; [rewrite days_before_month_0; lia|].
    apply first_of_month_fields. lia.
  - rewrite Z.div_small, Z.mod_small by lia. rewrite Z.add_0_r.
    replace (m =? 11) with false by (symmetry; apply Z.eqb_neq; exact E).
    specialize (Hhi ltac:(lia)).
    pose proof (days_before_month_range y (m + 1) ltac:(lia)) as Hb.
    rewrite time_clip_ok by (unfold max_time_value, ms_per_day; lia).
    eexists. split; [reflexivity|]. split; [lia|]. apply first_of_month_fields. lia.
Qed.

(** The x domain of [renderXandYAxis] for a window of two Dates [a] and
    [b] (years not 0..99, within -271820..275759): in the yearly case it
    is the window itself; in the monthly case it runs from the first of
    the month before the month of [a], strictly before [a], to the first
    of the month after the month of [b], strictly after [b]. *)
Theorem monthly_domain_contains_window (a b gWidth : Z) :
  ~ (0 <= year_at a <= 99) -> ~ (0 <= year_at b <= 99) ->
  -271820 <= year_at a <= 275759 -> -271820 <= year_at b <= 275759 ->
  match granularity_of (renderXAxis (Valid a) (Valid b) gWidth) with
  | Year => domain (renderXAxis (Valid a) (Valid b) gWidth) = (Valid a, Valid b)
  | Month =>
      exists d0 d1 ya ma yb mb,
        domain (renderXAxis (Valid a) (Valid b) gWidth) = (Valid d0, Valid d1) /\
        d0 < a /\ b < d1 /\
        getFullYear (Valid a) = Some ya /\ getMonth (Valid a) = Some ma /\
        getFullYear (Valid b) = Some yb /\ getMonth (Valid b) = Some mb /\
        getFullYear (Valid d0) = Some (if ma =? 0 then ya - 1 else ya) /\
        getMonth (Valid d0) = Some (if ma =? 0 then 11 else ma - 1) /\
        getDate (Valid d0) = Some 1 /\
        getFullYear (Valid d1) = Some (if mb =? 11 then yb + 1 else yb) /\
        getMonth (Valid d1) = Some (if mb =? 11 then 0 else mb + 1) /\
        getDate (Valid d1) = Some 1
  end.
Proof.
  unfold year_at. intros Ha Hb Hra Hrb. unfold renderXAxis.
  destruct (match diff_years (Valid a) (Valid b) with Some n => n <=? 1 | None => false end).
  - cbn [domain granularity_of getFullYear getMonth option_map].
    destruct (month_before_start (a / ms_per_day) Ha Hra) as [d0 [-> [H0 [F0 [M0 D0]]]]].
    destruct (month_after_end (b / ms_per_day) Hb Hrb) as [d1 [-> [H1 [F1 [M1 D1]]]]].
    exists (d0 * ms_per_day), (d1 * ms_per_day), (year_of_days (a / ms_per_day)),
      (month_of_days (a / ms_per_day)), (year_of_days (b / ms_per_day)), (month_of_days (b / ms_per_day)).
    assert (Ea : ms_per_day * (a / ms_per_day) <= a) by (apply Z.mul_div_le; unfold ms_per_day; lia).
    assert (Eb : b < ms_per_day * (b / ms_per_day + 1)).
    { rewrite Z.mul_add_distr_l, Z.mul_1_r.
      pose proof (Z.mod_pos_bound b ms_per_day ltac:(unfold ms_per_day; lia)).
      pose proof (Z.div_mod b ms_per_day ltac:(unfold ms_per_day; lia)). lia. }
    assert (ms_per_day * d0 <= ms_per_day * (a / ms_per_day - 1))
      by (apply Z.mul_le_mono_nonneg_l; [unfold ms_per_day; lia | lia]).
    assert (ms_per_day * (b / ms_per_day + 1) <= ms_per_day * d1)
      by (apply Z.mul_le_mono_nonneg_l; [unfold ms_per_day; lia | lia]).
    split; [reflexivity|]. split; [unfold ms_per_day in *; lia|].
    split; [unfold ms_per_day in *; lia|].
    repeat (split; [reflexivity|]). repeat split; assumption.
  - reflexivity.
Qed.

Lemma monthly_domain_contains_window_witness :
  let a := days_jan1 2024 * ms_per_day in
  let b := days_jan1 2025 * ms_per_day in
  ~ (0 <= year_at a <= 99) /\ ~ (0 <= year_at b <= 99) /\
  -271820 <= year_at a <= 275759 /\ -271820 <= year_at b <= 275759 /\
  granularity_of (renderXAxis (Valid a) (Valid b) 500) = Month /\
  exists d0 d1 ya ma yb mb,
    domain (renderXAxis (Valid a) (Valid b) 500) = (Valid d0, Valid d1) /\
    d0 < a /\ b < d1 /\
    getFullYear (Valid a) = Some ya /\ getMonth (Valid a) = Some ma /\
    getFullYear (Valid b) = Some yb /\ getMonth (Valid b) = Some mb /\
    getFullYear (Valid d0) = Some (if ma =? 0 then ya - 1 else ya) /\
    getMonth (Valid d0) = Some (if ma =? 0 then 11 else ma - 1) /\
    getDate (Valid d0) = Some 1 /\
    getFullYear (Valid d1) = Some (if mb =? 11 then yb + 1 else yb) /\
    getMonth (Valid d1) = Some (if mb =? 11 then 0 else mb + 1) /\
    getDate (Valid d1) = Some 1.
Proof.
  cbv zeta.
  assert (Ha : ~ (0 <= year_at (days_jan1 2024 * ms_per_day) <= 99))
    by (vm_compute; intros [_ H]; apply H; reflexivity).
  assert (Hb : ~ (0 <= year_at (days_jan1 2025 * ms_per_day) <= 99))
    by (vm_compute; intros [_ H]; apply H; reflexivity).
  assert (Hra : -271820 <= year_at (days_jan1 2024 * ms_per_day) <= 275759)
    by (vm_compute; split; discriminate).
  assert (Hrb : -271820 <= year_at (days_jan1 2025 * ms_per_day) <= 275759)
    by (vm_compute; split; discriminate).
  assert (Hg : granularity_of (renderXAxis (Valid (days_jan1 2024 * ms_per_day))
                                           (Valid (days_jan1 2025 * ms_per_day)) 500) = Month)
    by (vm_compute; reflexivity).
  split; [exact Ha|]. split; [exact Hb|]. split; [exact Hra|]. split; [exact Hrb|].
  split; [exact Hg|].
  pose proof (monthly_domain_contains_window _ _ 500 Ha Hb Hra Hrb) as H.
  rewrite Hg in H. exact H.
Defined.

Lemma bind_column_without_link ix ti c :
  link_column_ok c ->
  indices_without_link (bind_column ix ti c) = bind_column2 (indices_without_link ix) ti c.
Proof.
  intros Hc. destruct ix as [co ty de cl da hi fi]. unfold bind_column, bind_column2, indices_without_link. simpl.
  destruct (hasRole c CompanyRole); [reflexivity|].
  destruct (hasRole c TypeRole); [reflexivity|].
  destruct (hasRole c DescriptionRole); [reflexivity|].
  destruct (hasRole c CompanyLinkRole) eqn:El.
  - destruct (Hc El) as [-> [-> ->]]. reflexivity.
  - destruct (hasRole c DateRole); [reflexivity|].
    destruct (hasRole c HeaderImageRole); [reflexivity|].
    destruct (hasRole c FooterImageRole); reflexivity.
Qed.

Lemma bind_columns_from_without_link ix ti cols :
  Forall link_column_ok cols ->
  indices_without_link (bind_columns_from ix ti cols) = bind_columns_from2 (indices_without_link ix) ti cols.
Proof.
  revert ix ti. induction cols as [|c cols IH]; intros ix ti Hf; [reflexivity|].
  inversion Hf; subst. simpl. rewrite IH by assumption. rewrite bind_column_without_link by assumption.
  reflexivity.
Qed.

Lemma convert_rows_without_link date_parse ix i rows :
  convert_rows2 date_parse (indices_without_link ix) i rows =
  (evs <- convert_rows date_parse ix i rows ;; JOk (map drop_link evs)).
Proof.
  revert i. induction rows as [|row rows IH]; intros i; [reflexivity|].
  simpl. unfold convert_row2, convert_row. simpl.
  destruct (js_toString (row_at row (companyIndex ix))); simpl; [|reflexivity].
  rewrite IH. destruct (convert_rows date_parse ix (S i) rows); reflexivity.
Qed.

(** The second class's [CONVERTER] gives the events of the first class's
    [CONVERTER] without their CompanyLink, and throws exactly when it
    throws, as long as no CompanyLink column also carries the Date,
    HeaderImage or FooterImage role. *)
Theorem converter2_is_converter_without_link date_parse cols rows :
  (forall c, In c cols -> hasRole c CompanyLinkRole = true ->
     hasRole c DateRole = false /\ hasRole c HeaderImageRole = false /\ hasRole c FooterImageRole = false) ->
  CONVERTER2 date_parse cols rows =
  (evs <- CONVERTER date_parse cols rows ;; JOk (map drop_link evs)).
Proof.
  intros H. unfold CONVERTER2, CONVERTER, bind_roles2, bind_roles.
  change no_indices2 with (indices_without_link no_indices).
  rewrite <- bind_columns_from_without_link.
  - apply convert_rows_without_link.
  - apply Forall_forall. exact H.
Qed.

Lemma converter2_is_converter_without_link_witness :
  (forall c, In c [{| roles := [CompanyRole] |}; {| roles := [CompanyLinkRole] |}; {| roles := [DateRole] |}] ->
     hasRole c CompanyLinkRole = true ->
     hasRole c DateRole = false /\ hasRole c HeaderImageRole = false /\ hasRole c FooterImageRole = false) /\
  CONVERTER2 parse_iso_date
    [{| roles := [CompanyRole] |}; {| roles := [CompanyLinkRole] |}; {| roles := [DateRole] |}]
    [[JStr "Acme"; JStr "https://acme.example"; JStr "2022-03-01"]] =
  (evs <- CONVERTER parse_iso_date
            [{| roles := [CompanyRole] |}; {| roles := [CompanyLinkRole] |}; {| roles := [DateRole] |}]
            [[JStr "Acme"; JStr "https://acme.example"; JStr "2022-03-01"]] ;;
   JOk (map drop_link evs)).
Proof.
  assert (H : forall c, In c [{| roles := [CompanyRole] |}; {| roles := [CompanyLinkRole] |};
                              {| roles := [DateRole] |}] ->
     hasRole c CompanyLinkRole = true ->
     hasRole c DateRole = false /\ hasRole c HeaderImageRole = false /\ hasRole c FooterImageRole = false).
  { intros c Hin Hl. destruct Hin as [<- | [<- | [<- | []]]]; vm_compute in *; auto; discriminate. }
  split; [exact H|]. apply converter2_is_converter_without_link. exact H.
Defined.
